(** * PyMISP [pymisp/tools/elfobject.py]: ELF objects and ELF section objects

    A shallow embedding of [ELFObject], [ELFSectionObject] and
    [make_elf_objects], together with the parts of Python, [hashlib], [lief]
    and the MISP object model that the module relies on. *)

From Stdlib Require Import ZArith List String Ascii Bool Lia.
From Stdlib Require Import Init.Byte DecimalString Floats.
Import ListNotations.

Local Open Scope Z_scope.

(** ** [hashlib]: md5, sha1, sha256 and sha512

    The four digest constructors imported on line 7 of the module, written
    out after RFC 1321 and FIPS 180-4.  A machine word of [w] bits is a [Z]
    with its wrap-around modulo [2^w] written out; a byte string is a
    [list byte]. *)
Module Hashlib.

Definition wrap (w x : Z) : Z := x mod 2 ^ w.

Definition add (w x y : Z) : Z := wrap w (x + y).

Definition lnot (w x : Z) : Z := Z.lxor x (2 ^ w - 1).

Definition rotl (w x n : Z) : Z :=
  wrap w (Z.lor (Z.shiftl x n) (Z.shiftr x (w - n))).

Definition rotr (w x n : Z) : Z := rotl w x (w - n).

Definition byte_val (b : byte) : Z := Z.of_N (Byte.to_N b).

(** [n] bytes of [x], most significant first. *)
Fixpoint be_bytes (n : nat) (x : Z) : list Z :=
  match n with
  | O => []
  | S k => Z.shiftr x (8 * Z.of_nat k) mod 256 :: be_bytes k x
  end.

(** [n] bytes of [x], least significant first. *)
Fixpoint le_bytes (n : nat) (x : Z) : list Z :=
  match n with
  | O => []
  | S k => x mod 256 :: le_bytes k (Z.shiftr x 8)
  end.

Definition be_word (bs : list Z) : Z :=
  fold_left (fun acc b => acc * 256 + b) bs 0.

Definition le_word (bs : list Z) : Z := be_word (rev bs).

(** Cut [l] in pieces of [n] elements; [fuel] bounds the number of
    pieces. *)
Fixpoint pieces {A : Type} (fuel n : nat) (l : list A) : list (list A) :=
  match fuel with
  | O => []
  | S f =>
      match l with
      | [] => []
      | _ :: _ => firstn n l :: pieces f n (skipn n l)
      end
  end.

Definition chunks {A : Type} (n : nat) (l : list A) : list (list A) :=
  pieces (List.length l) n l.

(** Merkle-Damgard padding: a [0x80] byte, zero bytes up to the block
    boundary less [lenbytes], then the length of the message in bits. *)
Definition padding (block lenbytes : nat) (len : nat) : list Z :=
  let used := (len + 1 + lenbytes)%nat in
  let zeros := ((block - used mod block) mod block)%nat in
  128 :: repeat 0 zeros.

Definition pad_le (data : list Z) : list Z :=
  data ++ padding 64 8 (List.length data)
       ++ le_bytes 8 (wrap 64 (8 * Z.of_nat (List.length data))).

Definition pad_be (block lenbytes : nat) (data : list Z) : list Z :=
  data ++ padding block lenbytes (List.length data)
       ++ be_bytes lenbytes (8 * Z.of_nat (List.length data)).

Definition hex_digit (d : Z) : ascii :=
  match d with
  | 0 => "0" | 1 => "1" | 2 => "2" | 3 => "3" | 4 => "4" | 5 => "5"
  | 6 => "6" | 7 => "7" | 8 => "8" | 9 => "9" | 10 => "a" | 11 => "b"
  | 12 => "c" | 13 => "d" | 14 => "e" | _ => "f"
  end%char.

(** [bytes.hex()]: two lowercase digits for each byte. *)
Fixpoint hex (bs : list Z) : string :=
  match bs with
  | [] => EmptyString
  | b :: r => String (hex_digit (b / 16)) (String (hex_digit (b mod 16)) (hex r))
  end.

(** *** MD5 (RFC 1321) *)

Definition md5_shifts : list Z :=
  [7; 12; 17; 22; 7; 12; 17; 22; 7; 12; 17; 22; 7; 12; 17; 22;
   5; 9; 14; 20; 5; 9; 14; 20; 5; 9; 14; 20; 5; 9; 14; 20;
   4; 11; 16; 23; 4; 11; 16; 23; 4; 11; 16; 23; 4; 11; 16; 23;
   6; 10; 15; 21; 6; 10; 15; 21; 6; 10; 15; 21; 6; 10; 15; 21].

(** [floor (2^32 * abs (sin (i + 1)))] for [i] from 0 to 63. *)
Definition md5_sines : list Z :=
  [0xd76aa478; 0xe8c7b756; 0x242070db; 0xc1bdceee;
   0xf57c0faf; 0x4787c62a; 0xa8304613; 0xfd469501;
   0x698098d8; 0x8b44f7af; 0xffff5bb1; 0x895cd7be;
   0x6b901122; 0xfd987193; 0xa679438e; 0x49b40821;
   0xf61e2562; 0xc040b340; 0x265e5a51; 0xe9b6c7aa;
   0xd62f105d; 0x02441453; 0xd8a1e681; 0xe7d3fbc8;
   0x21e1cde6; 0xc33707d6; 0xf4d50d87; 0x455a14ed;
   0xa9e3e905; 0xfcefa3f8; 0x676f02d9; 0x8d2a4c8a;
   0xfffa3942; 0x8771f681; 0x6d9d6122; 0xfde5380c;
   0xa4beea44; 0x4bdecfa9; 0xf6bb4b60; 0xbebfbc70;
   0x289b7ec6; 0xeaa127fa; 0xd4ef3085; 0x04881d05;
   0xd9d4d039; 0xe6db99e5; 0x1fa27cf8; 0xc4ac5665;
   0xf4292244; 0x432aff97; 0xab9423a7; 0xfc93a039;
   0x655b59c3; 0x8f0ccc92; 0xffeff47d; 0x85845dd1;
   0x6fa87e4f; 0xfe2ce6e0; 0xa3014314; 0x4e0811a1;
   0xf7537e82; 0xbd3af235; 0x2ad7d2bb; 0xeb86d391].

Definition md5_state : Type := Z * Z * Z * Z.

Definition md5_init : md5_state :=
  (0x67452301, 0xefcdab89, 0x98badcfe, 0x10325476).

Definition md5_round (m : list Z) (st : md5_state) (i : nat) : md5_state :=
  let '(a, b, c, d) := st in
  let zi := Z.of_nat i in
  let '(f, g) :=
    if zi <? 16 then (Z.lor (Z.land b c) (Z.land (lnot 32 b) d), zi)
    else if zi <? 32 then
      (Z.lor (Z.land d b) (Z.land (lnot 32 d) c), (5 * zi + 1) mod 16)
    else if zi <? 48 then (Z.lxor (Z.lxor b c) d, (3 * zi + 5) mod 16)
    else (Z.lxor c (Z.lor b (lnot 32 d)), (7 * zi) mod 16) in
  let f' := add 32 (add 32 (add 32 f a) (nth i md5_sines 0))
                (nth (Z.to_nat g) m 0) in
  (d, add 32 b (rotl 32 f' (nth i md5_shifts 0)), b, c).

Definition md5_block (st : md5_state) (blk : list Z) : md5_state :=
  let m := map le_word (chunks 4 blk) in
  let '(a, b, c, d) := st in
  let '(a', b', c', d') := fold_left (md5_round m) (seq 0 64) st in
  (add 32 a a', add 32 b b', add 32 c c', add 32 d d').

Definition md5_digest (data : list byte) : list Z :=
  let '(a, b, c, d) :=
    fold_left md5_block (chunks 64 (pad_le (map byte_val data))) md5_init in
  le_bytes 4 a ++ le_bytes 4 b ++ le_bytes 4 c ++ le_bytes 4 d.

(** *** SHA-1 (FIPS 180-4, section 6.1) *)

Definition sha1_state : Type := Z * Z * Z * Z * Z.

Definition sha1_init : sha1_state :=
  (0x67452301, 0xefcdab89, 0x98badcfe, 0x10325476, 0xc3d2e1f0).

(** Extends the message schedule [w] by one word per element of [ts]. *)
Definition sha1_schedule (w : list Z) (ts : list nat) : list Z :=
  fold_left
    (fun w t =>
       w ++ [rotl 32 (Z.lxor (Z.lxor (nth (t - 3) w 0) (nth (t - 8) w 0))
                             (Z.lxor (nth (t - 14) w 0) (nth (t - 16) w 0))) 1])
    ts w.

Definition sha1_round (w : list Z) (st : sha1_state) (t : nat) : sha1_state :=
  let '(a, b, c, d, e) := st in
  let zt := Z.of_nat t in
  let '(f, k) :=
    if zt <? 20 then (Z.lor (Z.land b c) (Z.land (lnot 32 b) d), 0x5a827999)
    else if zt <? 40 then (Z.lxor (Z.lxor b c) d, 0x6ed9eba1)
    else if zt <? 60 then
      (Z.lor (Z.lor (Z.land b c) (Z.land b d)) (Z.land c d), 0x8f1bbcdc)
    else (Z.lxor (Z.lxor b c) d, 0xca62c1d6) in
  let tmp := add 32 (add 32 (add 32 (add 32 (rotl 32 a 5) f) e) k) (nth t w 0) in
  (tmp, a, rotl 32 b 30, c, d).

Definition sha1_block (st : sha1_state) (blk : list Z) : sha1_state :=
  let w := sha1_schedule (map be_word (chunks 4 blk)) (seq 16 64) in
  let '(a, b, c, d, e) := st in
  let '(a', b', c', d', e') := fold_left (sha1_round w) (seq 0 80) st in
  (add 32 a a', add 32 b b', add 32 c c', add 32 d d', add 32 e e').

Definition sha1_digest (data : list byte) : list Z :=
  let '(a, b, c, d, e) :=
    fold_left sha1_block (chunks 64 (pad_be 64 8 (map byte_val data))) sha1_init in
  be_bytes 4 a ++ be_bytes 4 b ++ be_bytes 4 c ++ be_bytes 4 d ++ be_bytes 4 e.

(** *** SHA-256 and SHA-512 (FIPS 180-4, sections 6.2 and 6.4)

    The two functions share their structure and differ in the word size,
    the number of rounds, the rotation amounts and the constants.  The
    constants are the leading fractional bits of the square roots (initial
    state) and cube roots (round constants) of the first primes, and are
    computed here from that definition. *)

Definition is_prime (n : nat) : bool :=
  forallb (fun d => negb (Nat.eqb (n mod d) 0)) (seq 2 (n - 2)).

(** The first [count] primes that are at least [n]. *)
Fixpoint primes_from (fuel n count : nat) : list nat :=
  match fuel, count with
  | O, _ | _, O => []
  | S f, S c =>
      if is_prime n then n :: primes_from f (S n) c
      else primes_from f (S n) count
  end.

Definition first_primes (count : nat) : list Z :=
  map Z.of_nat (primes_from 512 2 count).

(** Integer cube root, one bit at a time from bit [bits - 1] down. *)
Fixpoint cbrt_bits (bits : nat) (n r : Z) : Z :=
  match bits with
  | O => r
  | S k =>
      let r' := r + 2 ^ Z.of_nat k in
      cbrt_bits k n (if r' * r' * r' <=? n then r' else r)
  end.

Definition frac_sqrt (w p : Z) : Z := wrap w (Z.sqrt (p * 2 ^ (2 * w))).

Definition frac_cbrt (w p : Z) : Z :=
  wrap w (cbrt_bits (Z.to_nat w + 8) (p * 2 ^ (3 * w)) 0).

Record sha2_params : Type := {
  word_bits : Z;
  word_bytes : nat;
  rounds : nat;
  Sigma0_rot : Z * Z * Z;
  Sigma1_rot : Z * Z * Z;
  sigma0_rot : Z * Z * Z;  (* two rotations and a shift *)
  sigma1_rot : Z * Z * Z;  (* two rotations and a shift *)
  round_constants : list Z;
  initial_state : list Z
}.

Definition sha256_round_constants : list Z :=
  Eval vm_compute in map (frac_cbrt 32) (first_primes 64).
Definition sha256_initial_state : list Z :=
  Eval vm_compute in map (frac_sqrt 32) (first_primes 8).
Definition sha512_round_constants : list Z :=
  Eval vm_compute in map (frac_cbrt 64) (first_primes 80).
Definition sha512_initial_state : list Z :=
  Eval vm_compute in map (frac_sqrt 64) (first_primes 8).

Definition sha256_params : sha2_params := {|
  word_bits := 32; word_bytes := 4; rounds := 64;
  Sigma0_rot := (2, 13, 22); Sigma1_rot := (6, 11, 25);
  sigma0_rot := (7, 18, 3); sigma1_rot := (17, 19, 10);
  round_constants := sha256_round_constants;
  initial_state := sha256_initial_state
|}.

Definition sha512_params : sha2_params := {|
  word_bits := 64; word_bytes := 8; rounds := 80;
  Sigma0_rot := (28, 34, 39); Sigma1_rot := (14, 18, 41);
  sigma0_rot := (1, 8, 7); sigma1_rot := (19, 61, 6);
  round_constants := sha512_round_constants;
  initial_state := sha512_initial_state
|}.

Section SHA2.
Variable P : sha2_params.

Let w := word_bits P.

Definition big_sigma (r : Z * Z * Z) (x : Z) : Z :=
  let '(r1, r2, r3) := r in
  Z.lxor (Z.lxor (rotr w x r1) (rotr w x r2)) (rotr w x r3).

Definition small_sigma (r : Z * Z * Z) (x : Z) : Z :=
  let '(r1, r2, s) := r in
  Z.lxor (Z.lxor (rotr w x r1) (rotr w x r2)) (Z.shiftr x s).

Definition Ch (x y z : Z) : Z :=
  Z.lxor (Z.land x y) (Z.land (lnot w x) z).

Definition Maj (x y z : Z) : Z :=
  Z.lxor (Z.lxor (Z.land x y) (Z.land x z)) (Z.land y z).

Definition sha2_state : Type := Z * Z * Z * Z * Z * Z * Z * Z.

Definition sha2_schedule (m : list Z) (ts : list nat) : list Z :=
  fold_left
    (fun m t =>
       m ++ [add w (add w (small_sigma (sigma1_rot P) (nth (t - 2) m 0))
                          (nth (t - 7) m 0))
                   (add w (small_sigma (sigma0_rot P) (nth (t - 15) m 0))
                          (nth (t - 16) m 0))])
    ts m.

Definition sha2_round (m : list Z) (st : sha2_state) (t : nat) : sha2_state :=
  let '(a, b, c, d, e, f, g, h) := st in
  let t1 := add w (add w (add w h (big_sigma (Sigma1_rot P) e))
                         (add w (Ch e f g) (nth t (round_constants P) 0)))
                (nth t m 0) in
  let t2 := add w (big_sigma (Sigma0_rot P) a) (Maj a b c) in
  (add w t1 t2, a, b, c, add w d t1, e, f, g).

Definition sha2_block (st : sha2_state) (blk : list Z) : sha2_state :=
  let m := sha2_schedule (map be_word (chunks (word_bytes P) blk))
             (seq 16 (rounds P - 16)) in
  let '(a, b, c, d, e, f, g, h) := st in
  let '(a', b', c', d', e', f', g', h') :=
    fold_left (sha2_round m) (seq 0 (rounds P)) st in
  (add w a a', add w b b', add w c c', add w d d',
   add w e e', add w f f', add w g g', add w h h').

Definition sha2_init : sha2_state :=
  let i := fun k => nth k (initial_state P) 0 in
  (i 0%nat, i 1%nat, i 2%nat, i 3%nat, i 4%nat, i 5%nat, i 6%nat, i 7%nat).

Definition sha2_digest (data : list byte) : list Z :=
  let n := word_bytes P in
  let '(a, b, c, d, e, f, g, h) :=
    fold_left sha2_block
      (chunks (16 * n) (pad_be (16 * n) (2 * n) (map byte_val data)))
      sha2_init in
  be_bytes n a ++ be_bytes n b ++ be_bytes n c ++ be_bytes n d
    ++ be_bytes n e ++ be_bytes n f ++ be_bytes n g ++ be_bytes n h.
End SHA2.

Definition sha256_digest : list byte -> list Z := sha2_digest sha256_params.
Definition sha512_digest : list byte -> list Z := sha2_digest sha512_params.

(** A hash object as [hashlib] returns it: the digest of the data it was
    built from, and [hexdigest()] rendering it. *)
Record hash : Type := { digest : list Z }.

Definition hexdigest (h : hash) : string := hex (digest h).

Definition md5 (data : list byte) : hash := {| digest := md5_digest data |}.
Definition sha1 (data : list byte) : hash := {| digest := sha1_digest data |}.
Definition sha256 (data : list byte) : hash := {| digest := sha256_digest data |}.
Definition sha512 (data : list byte) : hash := {| digest := sha512_digest data |}.

End Hashlib.


(** ** [lief]: what the parser reports

    The module reads a parsed binary through these attributes only.  An
    enumeration value is kept as what [str()] renders for it, the one thing
    the module does with it. *)
Module Lief.

Inductive enum : Type := Enum (rendering : string).

Definition str (e : enum) : string := let 'Enum s := e in s.

Record Section : Type := {
  name : string;
  type : enum;
  flags_list : list enum;
  size : Z;
  entropy : PrimFloat.float;
  content : list byte
}.

Record Header : Type := {
  file_type : enum;
  machine_type : enum;
  identity_os_abi : enum
}.

Record Binary : Type := {
  header : Header;
  entrypoint : Z;
  sections : list Section
}.

End Lief.

(** ** Python values, exceptions and the string operations the module uses

    A [str] is represented by its UTF-8 encoding, a [bytes] by a [list byte],
    an [int] by a [Z]. *)
Module Py.

(** The values the three arguments of [ELFObject.__init__] may hold. *)
Inductive object : Type :=
| PyNone
| PyBool (b : bool)
| PyInt (z : Z)
| PyStr (s : string)
| PyBytes (b : list byte)
| PyList (l : list Z)
| PyBytesIO (buf : list byte)
| PyPath (p : string)
| PyBinary (b : Lief.Binary).

(** [bool(o)], as [if o:] and [elif o:] evaluate it. *)
Definition truthy (o : object) : bool :=
  match o with
  | PyNone => false
  | PyBool b => b
  | PyInt z => negb (z =? 0)
  | PyStr s => match s with EmptyString => false | String _ _ => true end
  | PyBytes b => match b with [] => false | _ :: _ => true end
  | PyList l => match l with [] => false | _ :: _ => true end
  | PyBytesIO _ => true
  | PyPath _ => true
  | PyBinary _ => true
  end.

(** [str(type(o))], as the f-strings of the error messages render it. *)
Definition type_repr (o : object) : string :=
  match o with
  | PyNone => "<class 'NoneType'>"
  | PyBool _ => "<class 'bool'>"
  | PyInt _ => "<class 'int'>"
  | PyStr _ => "<class 'str'>"
  | PyBytes _ => "<class 'bytes'>"
  | PyList _ => "<class 'list'>"
  | PyBytesIO _ => "<class '_io.BytesIO'>"
  | PyPath _ => "<class 'pathlib.PosixPath'>"
  | PyBinary _ => "<class 'lief._lief.ELF.Binary'>"
  end.

(** The exceptions a call of the module can end in.  [Exception] stands
    for an exception of any other class, by the name of the class:
    [lief.ELF.parse] may raise such (a [TypeError] for an argument it does
    not take, for one). *)
Inductive exn : Type :=
| InvalidMISPObject (msg : string)
| AttributeError (msg : string)
| IndexError (msg : string)
| NameError (msg : string)
| UnicodeDecodeError (msg : string)
| Exception (cls msg : string).

(** [s.split(sep)] for a separator of one character. *)
Fixpoint split (sep : ascii) (s : string) : list string :=
  match s with
  | EmptyString => [EmptyString]
  | String c r =>
      if Ascii.eqb c sep then EmptyString :: split sep r
      else
        match split sep r with
        | [] => [String c EmptyString]
        | w :: ws => String c w :: ws
        end
  end.

(** [l[i]] for [0 <= i]; [None] stands for the [IndexError]. *)
Definition getitem {A : Type} (l : list A) (i : nat) : option A := nth_error l i.

(** [bool(s)] for a [str]. *)
Definition nonempty (s : string) : bool :=
  match s with EmptyString => false | String _ _ => true end.

(** [str(n)] for an [int], as an f-string renders it. *)
Definition format_int (n : Z) : string := NilZero.string_of_int (Z.to_int n).

Definition continuation (b : Z) : bool := (0x80 <=? b) && (b <=? 0xBF).

(** Well-formed UTF-8 (the strict error handler of [bytes.decode]). *)
Fixpoint utf8_valid (l : list Z) : bool :=
  match l with
  | [] => true
  | b0 :: r0 =>
      if b0 <? 0x80 then utf8_valid r0
      else
        match r0 with
        | [] => false
        | b1 :: r1 =>
            if (0xC2 <=? b0) && (b0 <=? 0xDF) then continuation b1 && utf8_valid r1
            else
              match r1 with
              | [] => false
              | b2 :: r2 =>
                  if (0xE0 <=? b0) && (b0 <=? 0xEF) then
                    (if b0 =? 0xE0 then (0xA0 <=? b1) && (b1 <=? 0xBF)
                     else if b0 =? 0xED then (0x80 <=? b1) && (b1 <=? 0x9F)
                     else continuation b1)
                    && continuation b2 && utf8_valid r2
                  else
                    match r2 with
                    | [] => false
                    | b3 :: r3 =>
                        if (0xF0 <=? b0) && (b0 <=? 0xF4) then
                          (if b0 =? 0xF0 then (0x90 <=? b1) && (b1 <=? 0xBF)
                           else if b0 =? 0xF4 then (0x80 <=? b1) && (b1 <=? 0x8F)
                           else continuation b1)
                          && continuation b2 && continuation b3 && utf8_valid r3
                        else false
                    end
              end
        end
  end.

(** [b.decode()]; [None] stands for the [UnicodeDecodeError]. *)
Definition decode (b : list byte) : option string :=
  if utf8_valid (map Hashlib.byte_val b) then Some (string_of_list_byte b)
  else None.

End Py.


(** ** The interpreter: what a call may do besides returning

    A call of the module may raise, draw a fresh identifier, log a warning,
    call the parser, or read the content of a section.  The world keeps the
    identifier supply and the trace of what was done, in order. *)
Module Run.

(** The ways [lief.ELF.parse] is called: [obj=], [raw=], and a path. *)
Inductive parse_arg : Type :=
| ParseObj (obj : list byte)
| ParseRaw (raw : list Z)
| ParsePath (filepath : Py.object).

Inductive event : Type :=
| LoggerWarning (msg : string)
| LiefParse (arg : parse_arg)
| SectionContent (section : Lief.Section).

Record world : Type := {
  next_uuid : nat;
  trace : list event
}.

Inductive result (A : Type) : Type :=
| Ok (a : A)
| Raise (e : Py.exn).

Arguments Ok {A} a.
Arguments Raise {A} e.

Definition M (A : Type) : Type := world -> result A * world.

Definition ret {A : Type} (a : A) : M A := fun w => (Ok a, w).

Definition raise {A : Type} (e : Py.exn) : M A := fun w => (Raise e, w).

Definition bind {A B : Type} (c : M A) (k : A -> M B) : M B :=
  fun w =>
    match c w with
    | (Ok a, w') => k a w'
    | (Raise e, w') => (Raise e, w')
    end.

(** A call that returns or raises what [r] says and leaves the world as it
    is. *)
Definition lift {A : Type} (r : result A) : M A := fun w => (r, w).

Definition emit (e : event) : M unit :=
  fun w => (Ok tt, {| next_uuid := next_uuid w; trace := trace w ++ [e] |}).

Definition fresh_uuid : M nat :=
  fun w => (Ok (next_uuid w), {| next_uuid := S (next_uuid w); trace := trace w |}).

(** A [for] loop whose body updates the loop state [s] and may raise. *)
Fixpoint for_ {A S : Type} (l : list A) (body : S -> A -> M S) (s : S) : M S :=
  match l with
  | [] => ret s
  | x :: r => bind (body s x) (for_ r body)
  end.

End Run.

Declare Scope run_scope.
Delimit Scope run_scope with run.
Notation "x <- c ;; k" := (Run.bind c (fun x => k))
  (at level 61, c at next level, right associativity) : run_scope.
Notation "c ;;; k" := (Run.bind c (fun _ => k))
  (at level 61, right associativity) : run_scope.

(** ** The MISP object model *)
Module MISP.

Inductive value : Type :=
| VStr (s : string)
| VInt (z : Z)
| VFloat (f : PrimFloat.float).

Record MISPAttribute : Type := {
  object_relation : string;
  attribute_value : value
}.

Record MISPObjectReference : Type := {
  referenced_uuid : nat;
  relationship_type : string;
  comment : string
}.

(** The keyword arguments the module passes on and reads back (line 86). *)
Record kwargs : Type := {
  standalone : bool;
  default_attributes_parameters : list (string * string)
}.

(** Modelled from the spec: the record a generator produces, which the
    base class [AbstractMISPObjectGenerator] (not part of this module)
    implements.  It has a name, an identifier by which other records refer
    to it, and the attributes and references added to it, in the order of
    the calls. *)
Record MISPObject : Type := {
  name : string;
  uuid : nat;
  Attribute : list MISPAttribute;
  ObjectReference : list MISPObjectReference;
  _standalone : bool;
  _default_attributes_parameters : list (string * string)
}.

(** Modelled from the spec: [super().__init__(name, **kwargs)] of the base
    class, which is not part of this module: an empty record under a fresh
    identifier. *)
Definition __init__ (name : string) (kw : kwargs) : Run.M MISPObject :=
  (u <- Run.fresh_uuid ;;
   Run.ret {| name := name; uuid := u; Attribute := []; ObjectReference := [];
              _standalone := standalone kw;
              _default_attributes_parameters := default_attributes_parameters kw |})%run.

(** Modelled from the spec: [add_attribute(name, value)] of the base class,
    which is not part of this module: the record gains the attribute. *)
Definition add_attribute (self : MISPObject) (object_relation : string)
    (v : value) : MISPObject :=
  {| name := name self; uuid := uuid self;
     Attribute := Attribute self
                    ++ [{| object_relation := object_relation; attribute_value := v |}];
     ObjectReference := ObjectReference self;
     _standalone := _standalone self;
     _default_attributes_parameters := _default_attributes_parameters self |}.

(** Modelled from the spec: [add_reference(target_id, relation_kind, label)]
    of the base class, which is not part of this module: the record gains
    the reference. *)
Definition add_reference (self : MISPObject) (target : nat)
    (relationship comment : string) : MISPObject :=
  {| name := name self; uuid := uuid self;
     Attribute := Attribute self;
     ObjectReference := ObjectReference self
                          ++ [{| referenced_uuid := target;
                                 relationship_type := relationship;
                                 comment := comment |}];
     _standalone := _standalone self;
     _default_attributes_parameters := _default_attributes_parameters self |}.

(** The values of the attributes of a record under one name, in order. *)
Definition get_attributes_by_relation (self : MISPObject) (rel : string)
    : list value :=
  map attribute_value
    (filter (fun a => String.eqb (object_relation a) rel) (Attribute self)).

Definition has_attribute (self : MISPObject) (rel : string) : bool :=
  existsb (fun a => String.eqb (object_relation a) rel) (Attribute self).

End MISP.

(** ** [pydeep], the optional fuzzy-hashing module *)
Module Pydeep.

Record module : Type := { hash_buf : list byte -> list byte }.

End Pydeep.


Local Open Scope string_scope.
Local Open Scope run_scope.

(** [str(x).split('.')[1]], the expression behind every enum-label
    attribute (lines 75, 77, 78, 106 and 108). *)
Definition enum_label (x : Lief.enum) : Run.M string :=
  match Py.getitem (Py.split "." (Lief.str x)) 1 with
  | Some label => Run.ret label
  | None => Run.raise (Py.IndexError "list index out of range")
  end.

(** [HAS_PYDEEP] (lines 18-22): whether [import pydeep] succeeded. *)
Definition HAS_PYDEEP (pydeep : option Pydeep.module) : bool :=
  match pydeep with
  | Some _ => true
  | None => false
  end.

(** ** [class ELFSectionObject] *)
Module ELFSectionObject.

Record t : Type := {
  base : MISP.MISPObject;
  __section : Lief.Section;
  __data : list byte
}.

Definition add_attribute (self : t) (rel : string) (v : MISP.value) : t :=
  {| base := MISP.add_attribute (base self) rel v;
     __section := __section self;
     __data := __data self |}.

Section WithPydeep.
Variable pydeep : option Pydeep.module.

(** Lines 116-117: the fuzzy hash, when the module was imported. *)
Definition add_ssdeep (self : t) : Run.M t :=
  if HAS_PYDEEP pydeep then
    match pydeep with
    | None => Run.raise (Py.NameError "name 'pydeep' is not defined")
    | Some m =>
        match Py.decode (Pydeep.hash_buf m (__data self)) with
        | Some s => Run.ret (add_attribute self "ssdeep" (MISP.VStr s))
        | None => Run.raise (Py.UnicodeDecodeError "'utf-8' codec can't decode")
        end
    end
  else Run.ret self.

Definition generate_attributes (self : t) : Run.M t :=
  let self := add_attribute self "name" (MISP.VStr (Lief.name (__section self))) in
  ty <- enum_label (Lief.type (__section self)) ;;
  let self := add_attribute self "type" (MISP.VStr ty) in
  self <- Run.for_ (Lief.flags_list (__section self))
            (fun self flag =>
               l <- enum_label flag ;;
               Run.ret (add_attribute self "flag" (MISP.VStr l)))
            self ;;
  let self := add_attribute self "size-in-bytes" (MISP.VInt (Lief.size (__section self))) in
  if (0 <? Lief.size (__section self))%Z then
    let self := add_attribute self "entropy" (MISP.VFloat (Lief.entropy (__section self))) in
    let self := add_attribute self "md5"
                  (MISP.VStr (Hashlib.hexdigest (Hashlib.md5 (__data self)))) in
    let self := add_attribute self "sha1"
                  (MISP.VStr (Hashlib.hexdigest (Hashlib.sha1 (__data self)))) in
    let self := add_attribute self "sha256"
                  (MISP.VStr (Hashlib.hexdigest (Hashlib.sha256 (__data self)))) in
    let self := add_attribute self "sha512"
                  (MISP.VStr (Hashlib.hexdigest (Hashlib.sha512 (__data self)))) in
    add_ssdeep self
  else Run.ret self.

(** [ELFSectionObject(section, **kwargs)]. *)
Definition __init__ (section : Lief.Section) (kw : MISP.kwargs) : Run.M t :=
  b <- MISP.__init__ "elf-section" kw ;;
  Run.emit (Run.SectionContent section) ;;;
  let self := {| base := b; __section := section; __data := Lief.content section |} in
  generate_attributes self.

End WithPydeep.
End ELFSectionObject.

(** ** [class ELFObject] *)
Module ELFObject.

Record t : Type := {
  base : MISP.MISPObject;
  __elf : option Lief.Binary;
  sections : list ELFSectionObject.t
}.

Definition add_attribute (self : t) (rel : string) (v : MISP.value) : t :=
  {| base := MISP.add_attribute (base self) rel v;
     __elf := __elf self;
     sections := sections self |}.

Definition add_reference (self : t) (target : nat) (rel comment : string) : t :=
  {| base := MISP.add_reference (base self) target rel comment;
     __elf := __elf self;
     sections := sections self |}.

Definition set___elf (self : t) (e : Lief.Binary) : t :=
  {| base := base self; __elf := Some e; sections := sections self |}.

Definition set_sections (self : t) (l : list ELFSectionObject.t) : t :=
  {| base := base self; __elf := __elf self; sections := l |}.

(** Reading [self.__elf], which no class attribute backs (line 41 is an
    annotation only). *)
Definition get___elf (self : t) : Run.M Lief.Binary :=
  match __elf self with
  | Some e => Run.ret e
  | None =>
      Run.raise (Py.AttributeError "'ELFObject' object has no attribute '_ELFObject__elf'")
  end.

Section WithImports.
Variable lief_ELF_parse : Run.parse_arg -> Run.result (option Lief.Binary).
Variable pydeep : option Pydeep.module.

(** A call of [lief.ELF.parse], recorded in the trace.  The imported
    function returns a binary, returns [None], or raises: the binding
    takes as a path only a [str] or a [Path], and as raw bytes only
    integers of one byte, and raises for the rest, where lines 52-63 hand
    it whatever is truthy.  The module catches nothing, so what the parser
    raises is what the call raises. *)
Definition parse (arg : Run.parse_arg) : Run.M (option Lief.Binary) :=
  Run.emit (Run.LiefParse arg) ;;;
  Run.lift (lief_ELF_parse arg).

(** The body of the loop of lines 83-89; the loop state is [self] and
    [pos]. *)
Definition section_step (st : t * Z) (section : Lief.Section) : Run.M (t * Z) :=
  let '(self, pos) := st in
  if negb (Py.nonempty (Lief.name section)) then Run.ret (self, pos)
  else
    s <- ELFSectionObject.__init__ pydeep section
           {| MISP.standalone := MISP._standalone (base self);
              MISP.default_attributes_parameters :=
                MISP._default_attributes_parameters (base self) |} ;;
    let self := add_reference self (MISP.uuid (ELFSectionObject.base s)) "includes"
                  ("Section " ++ Py.format_int pos ++ " of ELF") in
    let pos := pos + 1 in
    let self := set_sections self (sections self ++ [s]) in
    Run.ret (self, pos).

Definition generate_attributes (self : t) : Run.M t :=
  e <- get___elf self ;;
  l <- enum_label (Lief.file_type (Lief.header e)) ;;
  let self := add_attribute self "type" (MISP.VStr l) in
  e <- get___elf self ;;
  let self := add_attribute self "entrypoint-address" (MISP.VInt (Lief.entrypoint e)) in
  e <- get___elf self ;;
  l <- enum_label (Lief.machine_type (Lief.header e)) ;;
  let self := add_attribute self "arch" (MISP.VStr l) in
  e <- get___elf self ;;
  l <- enum_label (Lief.identity_os_abi (Lief.header e)) ;;
  let self := add_attribute self "os_abi" (MISP.VStr l) in
  let self := set_sections self [] in
  e <- get___elf self ;;
  self <- (match Lief.sections e with
           | [] => Run.ret self
           | _ :: _ =>
               let pos := 0 in
               e <- get___elf self ;;
               st <- Run.for_ (Lief.sections e) section_step (self, pos) ;;
               Run.ret (fst st)
           end) ;;
  Run.ret (add_attribute self "number-sections"
             (MISP.VInt (Z.of_nat (List.length (sections self))))).

(** Lines 50-70: the input [self.__elf] is taken from. *)
Definition resolve_input (self : t) (parsed filepath pseudofile : Py.object)
    : Run.M t :=
  if Py.truthy pseudofile then
    e <- (match pseudofile with
          | Py.PyBytesIO buf => parse (Run.ParseObj buf)
          | Py.PyBytes b => parse (Run.ParseRaw (map Hashlib.byte_val b))
          | Py.PyList l => parse (Run.ParseRaw l)
          | _ =>
              Run.raise (Py.InvalidMISPObject
                ("Pseudo file can be BytesIO or bytes got "
                   ++ Py.type_repr pseudofile))
          end) ;;
    match e with
    | None => Run.raise (Py.InvalidMISPObject "Unable to parse pseudofile")
    | Some e => Run.ret (set___elf self e)
    end
  else if Py.truthy filepath then
    e <- parse (Run.ParsePath filepath) ;;
    match e with
    | Some e => Run.ret (set___elf self e)
    | None => Run.ret self
    end
  else if Py.truthy parsed then
    match parsed with
    | Py.PyBinary e => Run.ret (set___elf self e)
    | _ =>
        Run.raise (Py.InvalidMISPObject
          ("Not a lief.ELF.Binary: " ++ Py.type_repr parsed))
    end
  else Run.ret self.

(** [ELFObject(parsed, filepath, pseudofile, **kwargs)] (lines 43-71). *)
Definition __init__ (parsed filepath pseudofile : Py.object) (kw : MISP.kwargs)
    : Run.M t :=
  b <- MISP.__init__ "elf" kw ;;
  let self := {| base := b; __elf := None; sections := [] |} in
  (if negb (HAS_PYDEEP pydeep) then
     Run.emit (Run.LoggerWarning
       "pydeep is missing, please install pymisp this way: pip install pymisp[fileobjects]")
   else Run.ret tt) ;;;
  self <- resolve_input self parsed filepath pseudofile ;;
  generate_attributes self.

End WithImports.
End ELFObject.

(** ** [make_elf_objects] (lines 27-36) *)
Section MakeElfObjects.
Variable lief_ELF_parse : Run.parse_arg -> Run.result (option Lief.Binary).
Variable pydeep : option Pydeep.module.

Definition make_elf_objects (lief_parsed : Py.object) (misp_file : MISP.MISPObject)
    (standalone : bool) (default_attributes_parameters : list (string * string))
    : Run.M (MISP.MISPObject * ELFObject.t * list ELFSectionObject.t) :=
  elf_object <- ELFObject.__init__ lief_ELF_parse pydeep lief_parsed Py.PyNone Py.PyNone
                  {| MISP.standalone := standalone;
                     MISP.default_attributes_parameters := default_attributes_parameters |} ;;
  let misp_file := MISP.add_reference misp_file (MISP.uuid (ELFObject.base elf_object))
                     "includes" "ELF indicators" in
  let elf_sections := fold_left (fun acc s => (acc ++ [s])%list) (ELFObject.sections elf_object) [] in
  Run.ret (misp_file, elf_object, elf_sections).

End MakeElfObjects.


(** ** Notions the statements below use *)

(** The three types line 51-56 accept for [pseudofile]. *)
Definition supported_pseudofile (o : Py.object) : bool :=
  match o with
  | Py.PyBytesIO _ | Py.PyBytes _ | Py.PyList _ => true
  | _ => false
  end.

(** [isinstance(o, lief.ELF.Binary)] (line 67). *)
Definition is_Binary (o : Py.object) : bool :=
  match o with
  | Py.PyBinary _ => true
  | _ => false
  end.

(** [c in s]. *)
Fixpoint contains (c : ascii) (s : string) : bool :=
  match s with
  | EmptyString => false
  | String d r => Ascii.eqb d c || contains c r
  end.

(** [bool(section.name)], which line 84 negates. *)
Definition has_name (s : Lief.Section) : bool := Py.nonempty (Lief.name s).

(** The sections the loop of lines 83-89 retains. *)
Definition named_sections (e : Lief.Binary) : list Lief.Section :=
  filter has_name (Lief.sections e).

(** The reference line 87 adds for the section object [s] at position
    [pos]. *)
Definition section_reference (pos : Z) (s : ELFSectionObject.t)
    : MISP.MISPObjectReference :=
  {| MISP.referenced_uuid := MISP.uuid (ELFSectionObject.base s);
     MISP.relationship_type := "includes";
     MISP.comment := "Section " ++ Py.format_int pos ++ " of ELF" |}.

Fixpoint section_references (pos : Z) (l : list ELFSectionObject.t)
    : list MISP.MISPObjectReference :=
  match l with
  | [] => []
  | s :: r => section_reference pos s :: section_references (pos + 1) r
  end.

Definition attr (rel : string) (v : MISP.value) : MISP.MISPAttribute :=
  {| MISP.object_relation := rel; MISP.attribute_value := v |}.

(** The message of the [AttributeError] a read of the unset [__elf]
    raises. *)
Definition no___elf : string :=
  "'ELFObject' object has no attribute '_ELFObject__elf'".

(** [sep.join(l)]. *)
Fixpoint join (sep : ascii) (l : list string) : string :=
  match l with
  | [] => EmptyString
  | w :: r =>
      match r with
      | [] => w
      | _ :: _ => w ++ String sep (join sep r)
      end
  end.

(** What [enum_label] returns or raises; it leaves the world alone. *)
Definition label_of (x : Lief.enum) : Run.result string :=
  match Py.getitem (Py.split "." (Lief.str x)) 1 with
  | Some l => Run.Ok l
  | None => Run.Raise (Py.IndexError "list index out of range")
  end.

(** The labels of a list of enum values, left to right, up to the first
    that raises. *)
Fixpoint labels_of (l : list Lief.enum) : Run.result (list string) :=
  match l with
  | [] => Run.Ok []
  | x :: r =>
      match label_of x with
      | Run.Raise e => Run.Raise e
      | Run.Ok a =>
          match labels_of r with
          | Run.Raise e => Run.Raise e
          | Run.Ok ls => Run.Ok (a :: ls)
          end
      end
  end.

(** What lines 116-117 add to a section object whose data is [data]. *)
Definition ssdeep_attributes (pydeep : option Pydeep.module) (data : list byte)
    : Run.result (list MISP.MISPAttribute) :=
  match pydeep with
  | None => Run.Ok []
  | Some m =>
      match Py.decode (Pydeep.hash_buf m data) with
      | Some s => Run.Ok [attr "ssdeep" (MISP.VStr s)]
      | None => Run.Raise (Py.UnicodeDecodeError "'utf-8' codec can't decode")
      end
  end.

(** The attributes lines 111-115 add for the data [data]. *)
Definition digest_attributes (entropy : PrimFloat.float) (data : list byte)
    : list MISP.MISPAttribute :=
  [attr "entropy" (MISP.VFloat entropy);
   attr "md5" (MISP.VStr (Hashlib.hexdigest (Hashlib.md5 data)));
   attr "sha1" (MISP.VStr (Hashlib.hexdigest (Hashlib.sha1 data)));
   attr "sha256" (MISP.VStr (Hashlib.hexdigest (Hashlib.sha256 data)));
   attr "sha512" (MISP.VStr (Hashlib.hexdigest (Hashlib.sha512 data)))].

Definition flag_attributes (labels : list string) : list MISP.MISPAttribute :=
  map (fun l => attr "flag" (MISP.VStr l)) labels.

(** The attributes of the section object of [s], in the order they are
    added, or the exception raised on the way.  [ELFSectionObject_init_eq]
    below proves that the constructor computes exactly this. *)
Definition section_attributes (pydeep : option Pydeep.module) (s : Lief.Section)
    : Run.result (list MISP.MISPAttribute) :=
  match label_of (Lief.type s) with
  | Run.Raise e => Run.Raise e
  | Run.Ok ty =>
      match labels_of (Lief.flags_list s) with
      | Run.Raise e => Run.Raise e
      | Run.Ok ls =>
          let always :=
            ([attr "name" (MISP.VStr (Lief.name s)); attr "type" (MISP.VStr ty)]
               ++ flag_attributes ls
               ++ [attr "size-in-bytes" (MISP.VInt (Lief.size s))])%list in
          if (0 <? Lief.size s)%Z then
            match ssdeep_attributes pydeep (Lief.content s) with
            | Run.Raise e => Run.Raise e
            | Run.Ok ss =>
                Run.Ok (always ++ digest_attributes (Lief.entropy s) (Lief.content s)
                               ++ ss)%list
            end
          else Run.Ok always
      end
  end.

(** The section object with identifier [u] and attributes [attrs]. *)
Definition section_object (u : nat) (kw : MISP.kwargs) (s : Lief.Section)
    (attrs : list MISP.MISPAttribute) : ELFSectionObject.t :=
  {| ELFSectionObject.base :=
       {| MISP.name := "elf-section"; MISP.uuid := u;
          MISP.Attribute := attrs; MISP.ObjectReference := [];
          MISP._standalone := MISP.standalone kw;
          MISP._default_attributes_parameters :=
            MISP.default_attributes_parameters kw |};
     ELFSectionObject.__section := s;
     ELFSectionObject.__data := Lief.content s |}.

(** The world after a section object was built for [s]. *)
Definition after_section (s : Lief.Section) (w : Run.world) : Run.world :=
  {| Run.next_uuid := S (Run.next_uuid w);
     Run.trace := Run.trace w ++ [Run.SectionContent s] |}.

(** The body of the loop of lines 107-108. *)
Definition flag_step (self : ELFSectionObject.t) (flag : Lief.enum)
    : Run.M ELFSectionObject.t :=
  l <- enum_label flag ;;
  Run.ret (ELFSectionObject.add_attribute self "flag" (MISP.VStr l)).

(** [self] with the attributes [attrs] added at the end. *)
Definition add_attributes (self : ELFSectionObject.t)
    (attrs : list MISP.MISPAttribute) : ELFSectionObject.t :=
  {| ELFSectionObject.base :=
       {| MISP.name := MISP.name (ELFSectionObject.base self);
          MISP.uuid := MISP.uuid (ELFSectionObject.base self);
          MISP.Attribute := MISP.Attribute (ELFSectionObject.base self) ++ attrs;
          MISP.ObjectReference := MISP.ObjectReference (ELFSectionObject.base self);
          MISP._standalone := MISP._standalone (ELFSectionObject.base self);
          MISP._default_attributes_parameters :=
            MISP._default_attributes_parameters (ELFSectionObject.base self) |};
     ELFSectionObject.__section := ELFSectionObject.__section self;
     ELFSectionObject.__data := ELFSectionObject.__data self |}.

(** The keyword arguments line 86 passes to the section objects. *)
Definition kwargs_of (self : ELFObject.t) : MISP.kwargs :=
  {| MISP.standalone := MISP._standalone (ELFObject.base self);
     MISP.default_attributes_parameters :=
       MISP._default_attributes_parameters (ELFObject.base self) |}.

(** [objs] are the section objects of [secs], in order, built with the
    identifiers [u], [u + 1], ... *)
Fixpoint built (pydeep : option Pydeep.module) (kw : MISP.kwargs) (u : nat)
    (secs : list Lief.Section) (objs : list ELFSectionObject.t) : Prop :=
  match secs, objs with
  | [], [] => True
  | s :: secs', o :: objs' =>
      (exists attrs,
          section_attributes pydeep s = Run.Ok attrs
          /\ o = section_object u kw s attrs)
      /\ built pydeep kw (S u) secs' objs'
  | _, _ => False
  end.

(** [self] after the loop of lines 83-89 has added the section objects
    [objs], the first at position [pos]. *)
Definition with_sections (self : ELFObject.t) (pos : Z)
    (objs : list ELFSectionObject.t) : ELFObject.t :=
  {| ELFObject.base :=
       {| MISP.name := MISP.name (ELFObject.base self);
          MISP.uuid := MISP.uuid (ELFObject.base self);
          MISP.Attribute := MISP.Attribute (ELFObject.base self);
          MISP.ObjectReference :=
            MISP.ObjectReference (ELFObject.base self)
              ++ section_references pos objs;
          MISP._standalone := MISP._standalone (ELFObject.base self);
          MISP._default_attributes_parameters :=
            MISP._default_attributes_parameters (ELFObject.base self) |};
     ELFObject.__elf := ELFObject.__elf self;
     ELFObject.sections := ELFObject.sections self ++ objs |}.

(** The world after section objects were built for [secs]. *)
Definition after_sections (secs : list Lief.Section) (w : Run.world) : Run.world :=
  {| Run.next_uuid := Run.next_uuid w + List.length secs;
     Run.trace := Run.trace w ++ map Run.SectionContent secs |}.

(** The world in which input resolution starts: the identifier of the
    object is drawn, and the warning about pydeep logged if it is
    missing. *)
Definition started (pydeep : option Pydeep.module) (w : Run.world) : Run.world :=
  {| Run.next_uuid := S (Run.next_uuid w);
     Run.trace :=
       Run.trace w
         ++ (if HAS_PYDEEP pydeep then []
             else [Run.LoggerWarning
                     "pydeep is missing, please install pymisp this way: pip install pymisp[fileobjects]"]) |}.

(** The object input resolution starts from. *)
Definition blank (kw : MISP.kwargs) (w : Run.world) : ELFObject.t :=
  {| ELFObject.base :=
       {| MISP.name := "elf"; MISP.uuid := Run.next_uuid w;
          MISP.Attribute := []; MISP.ObjectReference := [];
          MISP._standalone := MISP.standalone kw;
          MISP._default_attributes_parameters :=
            MISP.default_attributes_parameters kw |};
     ELFObject.__elf := None;
     ELFObject.sections := [] |}.

(** The enum-label attributes of a section object: [type] and the
    [flag]s are the labels of the type and of the flags of its section, in
    order, and hold no separator. *)
Definition section_labels_bare (o : ELFSectionObject.t) : Prop :=
  exists ty ls,
    (forall w, enum_label (Lief.type (ELFSectionObject.__section o)) w = (Run.Ok ty, w))
    /\ Forall2 (fun x l => forall w, enum_label x w = (Run.Ok l, w))
         (Lief.flags_list (ELFSectionObject.__section o)) ls
    /\ MISP.get_attributes_by_relation (ELFSectionObject.base o) "type" = [MISP.VStr ty]
    /\ MISP.get_attributes_by_relation (ELFSectionObject.base o) "flag"
       = map MISP.VStr ls
    /\ contains "." ty = false
    /\ Forall (fun l => contains "." l = false) ls.

(** The argument [lief.ELF.parse] is called with for a [pseudofile] of one
    of the three supported types (lines 51-56). *)
Definition parse_arg_of (pseudofile : Py.object) : option Run.parse_arg :=
  match pseudofile with
  | Py.PyBytesIO buf => Some (Run.ParseObj buf)
  | Py.PyBytes b => Some (Run.ParseRaw (map Hashlib.byte_val b))
  | Py.PyList l => Some (Run.ParseRaw l)
  | _ => None
  end.

(** The world after one call of the parser. *)
Definition parsed_with (arg : Run.parse_arg) (w : Run.world) : Run.world :=
  {| Run.next_uuid := Run.next_uuid w;
     Run.trace := Run.trace w ++ [Run.LiefParse arg] |}.

(** *** Notions for the trace and for what a call depends on *)

(** The world [w] with an empty trace. *)
Definition bare (w : Run.world) : Run.world :=
  {| Run.next_uuid := Run.next_uuid w; Run.trace := [] |}.

(** [c] looks at the world only for the next identifier, and adds to the
    trace only events that satisfy [P]: run in [w], it returns what it
    returns in [bare w], and appends to the trace of [w] what it writes
    there. *)
Definition tidy (P : Run.event -> Prop) {A : Type} (c : Run.M A) : Prop :=
  forall w,
    fst (c w) = fst (c (bare w))
    /\ Run.next_uuid (snd (c w)) = Run.next_uuid (snd (c (bare w)))
    /\ Run.trace (snd (c w)) = (Run.trace w ++ Run.trace (snd (c (bare w))))%list
    /\ Forall P (Run.trace (snd (c (bare w)))).

Definition is_content (e : Run.event) : Prop :=
  match e with
  | Run.SectionContent _ => True
  | _ => False
  end.

(** The messages logged, in order. *)
Definition warnings (t : list Run.event) : list string :=
  flat_map (fun e => match e with Run.LoggerWarning m => [m] | _ => [] end) t.

(** The arguments the parser was called with, in order. *)
Definition parse_calls (t : list Run.event) : list Run.parse_arg :=
  flat_map (fun e => match e with Run.LiefParse a => [a] | _ => [] end) t.

(** The message of line 49. *)
Definition pydeep_warning : string :=
  "pydeep is missing, please install pymisp this way: pip install pymisp[fileobjects]".

(** Two outcomes of [ELFObject.__init__] that agree on everything but the
    binary kept in [__elf]. *)
Definition same_but___elf (r1 r2 : Run.result ELFObject.t * Run.world) : Prop :=
  snd r1 = snd r2
  /\ match fst r1, fst r2 with
     | Run.Ok o1, Run.Ok o2 =>
         ELFObject.base o1 = ELFObject.base o2
         /\ ELFObject.sections o1 = ELFObject.sections o2
     | Run.Raise x1, Run.Raise x2 => x1 = x2
     | _, _ => False
     end.

(** The calls of the parser lines 50-64 make: one for a truthy
    [pseudofile] of a supported type, else one for a truthy [filepath],
    else none. *)
Definition resolved_calls (filepath pseudofile : Py.object) : list Run.parse_arg :=
  if Py.truthy pseudofile then
    match parse_arg_of pseudofile with
    | Some a => [a]
    | None => []
    end
  else if Py.truthy filepath then [Run.ParsePath filepath]
  else [].

(** [self] after lines 75-80, given the three labels of the header. *)
Definition labelled (self : ELFObject.t) (e : Lief.Binary) (l1 l2 l3 : string)
    : ELFObject.t :=
  ELFObject.set_sections
    (ELFObject.add_attribute
       (ELFObject.add_attribute
          (ELFObject.add_attribute
             (ELFObject.add_attribute self "type" (MISP.VStr l1))
             "entrypoint-address" (MISP.VInt (Lief.entrypoint e)))
          "arch" (MISP.VStr l2))
       "os_abi" (MISP.VStr l3))
    [].

(** [self] after line 90. *)
Definition counted (self : ELFObject.t) : ELFObject.t :=
  ELFObject.add_attribute self "number-sections"
    (MISP.VInt (Z.of_nat (List.length (ELFObject.sections self)))).

(** [str(x).split('.')[1]] does not raise. *)
Definition has_label (x : Lief.enum) : Prop :=
  exists l, forall w, enum_label x w = (Run.Ok l, w).

(** A section object can be built for [s]. *)
Definition section_buildable (pydeep : option Pydeep.module) (s : Lief.Section)
    : Prop :=
  forall kw w, exists so w', ELFSectionObject.__init__ pydeep s kw w = (Run.Ok so, w').

(** What lines 50-70 come to, written out: the outcome of input
    resolution and the world it leaves.  [resolve_input_eq] below proves
    that [ELFObject.resolve_input] computes exactly this. *)
Definition resolved (lief_ELF_parse : Run.parse_arg -> Run.result (option Lief.Binary))
    (self : ELFObject.t) (parsed filepath pseudofile : Py.object) (w : Run.world)
    : Run.result ELFObject.t * Run.world :=
  if Py.truthy pseudofile then
    match parse_arg_of pseudofile with
    | None =>
        (Run.Raise (Py.InvalidMISPObject
           ("Pseudo file can be BytesIO or bytes got " ++ Py.type_repr pseudofile)), w)
    | Some arg =>
        (match lief_ELF_parse arg with
         | Run.Ok (Some e) => Run.Ok (ELFObject.set___elf self e)
         | Run.Ok None => Run.Raise (Py.InvalidMISPObject "Unable to parse pseudofile")
         | Run.Raise x => Run.Raise x
         end, parsed_with arg w)
    end
  else if Py.truthy filepath then
    (match lief_ELF_parse (Run.ParsePath filepath) with
     | Run.Ok (Some e) => Run.Ok (ELFObject.set___elf self e)
     | Run.Ok None => Run.Ok self
     | Run.Raise x => Run.Raise x
     end, parsed_with (Run.ParsePath filepath) w)
  else if Py.truthy parsed then
    (match parsed with
     | Py.PyBinary e => Run.Ok (ELFObject.set___elf self e)
     | _ => Run.Raise (Py.InvalidMISPObject
                         ("Not a lief.ELF.Binary: " ++ Py.type_repr parsed))
     end, w)
  else (Run.Ok self, w).

(** ** Sample inputs *)
Module Sample.

Definition kw : MISP.kwargs :=
  {| MISP.standalone := true; MISP.default_attributes_parameters := [] |}.

Definition w0 : Run.world := {| Run.next_uuid := 0; Run.trace := [] |}.

Definition text : Lief.Section :=
  {| Lief.name := ".text"; Lief.type := Lief.Enum "TYPE.PROGBITS";
     Lief.flags_list := [Lief.Enum "FLAGS.ALLOC"; Lief.Enum "FLAGS.EXECINSTR"];
     Lief.size := 10; Lief.entropy := 0%float;
     Lief.content := repeat x00 10 |}.

Definition null : Lief.Section :=
  {| Lief.name := EmptyString; Lief.type := Lief.Enum "TYPE.NULL";
     Lief.flags_list := []; Lief.size := 0; Lief.entropy := 0%float;
     Lief.content := [] |}.

Definition comment : Lief.Section :=
  {| Lief.name := ".comment"; Lief.type := Lief.Enum "TYPE.PROGBITS";
     Lief.flags_list := [Lief.Enum "FLAGS.MERGE"]; Lief.size := 0;
     Lief.entropy := 0%float; Lief.content := [] |}.

Definition binary : Lief.Binary :=
  {| Lief.header :=
       {| Lief.file_type := Lief.Enum "ELF.EXE";
          Lief.machine_type := Lief.Enum "ARCH.X86_64";
          Lief.identity_os_abi := Lief.Enum "OS_ABI.SYSTEMV" |};
     Lief.entrypoint := 4096;
     Lief.sections := [null; text; comment] |}.

(** A section that takes room in memory and none in the file. *)
Definition bss : Lief.Section :=
  {| Lief.name := ".bss"; Lief.type := Lief.Enum "TYPE.NOBITS";
     Lief.flags_list := [Lief.Enum "FLAGS.ALLOC"; Lief.Enum "FLAGS.WRITE"];
     Lief.size := 64; Lief.entropy := 0%float; Lief.content := [] |}.

(** A section whose type has a rendering without a separator. *)
Definition odd : Lief.Section :=
  {| Lief.name := ".odd"; Lief.type := Lief.Enum "PROGBITS";
     Lief.flags_list := []; Lief.size := 0; Lief.entropy := 0%float;
     Lief.content := [] |}.

(** [binary] with more sections without a name, in other places. *)
Definition binary' : Lief.Binary :=
  {| Lief.header := Lief.header binary;
     Lief.entrypoint := Lief.entrypoint binary;
     Lief.sections := [text; null; null; comment; null] |}.

(** [binary] with a last section whose type has no label. *)
Definition binary_odd : Lief.Binary :=
  {| Lief.header := Lief.header binary;
     Lief.entrypoint := Lief.entrypoint binary;
     Lief.sections := [text; odd] |}.

(** A file object with one attribute and no reference yet. *)
Definition file : MISP.MISPObject :=
  {| MISP.name := "file"; MISP.uuid := 7;
     MISP.Attribute := [attr "filename" (MISP.VStr "a.out")];
     MISP.ObjectReference := [];
     MISP._standalone := true;
     MISP._default_attributes_parameters := [] |}.

(** A parser that recognises nothing. *)
Definition parse_nothing (arg : Run.parse_arg) : Run.result (option Lief.Binary) :=
  Run.Ok None.

(** A parser that takes whatever starts with the ELF magic number for
    [binary]. *)
Definition parse_magic (arg : Run.parse_arg) : Run.result (option Lief.Binary) :=
  match arg with
  | Run.ParseRaw (127 :: 69 :: 76 :: 70 :: _) => Run.Ok (Some binary)
  | Run.ParseObj (x7f :: x45 :: x4c :: x46 :: _) => Run.Ok (Some binary)
  | _ => Run.Ok None
  end.

(** A parser that, like the binding, takes as a path only a [str] or a
    [Path] and as raw bytes only integers of one byte, and raises
    [TypeError] for the rest.  No path names a file it can read; it takes
    buffers as [parse_magic] does. *)
Definition parse_strict (arg : Run.parse_arg) : Run.result (option Lief.Binary) :=
  let type_error :=
    Run.Raise (Py.Exception "TypeError" "parse(): incompatible function arguments") in
  match arg with
  | Run.ParsePath (Py.PyStr _) | Run.ParsePath (Py.PyPath _) => Run.Ok None
  | Run.ParsePath _ => type_error
  | Run.ParseRaw raw =>
      if forallb (fun n => (0 <=? n) && (n <? 256))%Z raw then parse_magic arg
      else type_error
  | Run.ParseObj _ => parse_magic arg
  end.

(** A stand-in for the fuzzy hash: the block size and two empty
    signatures. *)
Definition fuzzy : Pydeep.module :=
  {| Pydeep.hash_buf := fun _ => list_byte_of_string "3::" |}.

End Sample.


(** * Properties *)

(** ** Digest lengths *)
Module HashlibFacts.
Import Hashlib.

Lemma length_be_bytes (n : nat) (x : Z) : List.length (be_bytes n x) = n.
Proof. induction n as [|n IH]; simpl; [reflexivity | now rewrite IH]. Qed.

Lemma length_le_bytes (n : nat) (x : Z) : List.length (le_bytes n x) = n.
Proof.
  revert x; induction n as [|n IH]; intro x; simpl; [reflexivity | now rewrite IH].
Qed.

Lemma length_hex (bs : list Z) : String.length (hex bs) = (2 * List.length bs)%nat.
Proof. induction bs as [|b r IH]; simpl; [reflexivity | rewrite IH; lia]. Qed.

Lemma length_md5_digest (data : list byte) : List.length (md5_digest data) = 16%nat.
Proof.
  unfold md5_digest.
  destruct (fold_left md5_block _ md5_init) as [[[a b] c] d].
  now rewrite !List.length_app, !length_le_bytes.
Qed.

Lemma length_sha1_digest (data : list byte) : List.length (sha1_digest data) = 20%nat.
Proof.
  unfold sha1_digest.
  destruct (fold_left sha1_block _ sha1_init) as [[[[a b] c] d] e].
  now rewrite !List.length_app, !length_be_bytes.
Qed.

Lemma length_sha2_digest (P : sha2_params) (data : list byte) :
  List.length (sha2_digest P data) = (8 * word_bytes P)%nat.
Proof.
  unfold sha2_digest.
  destruct (fold_left (sha2_block P) _ (sha2_init P)) as [[[[[[[a b] c] d] e] f] g] h].
  rewrite !List.length_app, !length_be_bytes. lia.
Qed.

Lemma length_hexdigest_md5 (data : list byte) :
  String.length (hexdigest (md5 data)) = 32%nat.
Proof. unfold hexdigest, md5; simpl; now rewrite length_hex, length_md5_digest. Qed.

Lemma length_hexdigest_sha1 (data : list byte) :
  String.length (hexdigest (sha1 data)) = 40%nat.
Proof. unfold hexdigest, sha1; simpl; now rewrite length_hex, length_sha1_digest. Qed.

Lemma length_hexdigest_sha256 (data : list byte) :
  String.length (hexdigest (sha256 data)) = 64%nat.
Proof.
  unfold hexdigest, sha256, sha256_digest; simpl digest.
  now rewrite length_hex, length_sha2_digest.
Qed.

Lemma length_hexdigest_sha512 (data : list byte) :
  String.length (hexdigest (sha512 data)) = 128%nat.
Proof.
  unfold hexdigest, sha512, sha512_digest; simpl digest.
  now rewrite length_hex, length_sha2_digest.
Qed.

(** The implementations agree with [hashlib] on the empty input and on
    ten zero bytes. *)
Example md5_empty : hexdigest (md5 []) = "d41d8cd98f00b204e9800998ecf8427e".
Proof. vm_compute. reflexivity. Qed.

Example sha1_empty : hexdigest (sha1 []) = "da39a3ee5e6b4b0d3255bfef95601890afd80709".
Proof. vm_compute. reflexivity. Qed.

Example sha256_empty :
  hexdigest (sha256 [])
  = "e3b0c44298fc1c149afbf4c8996fb92427ae41e4649b934ca495991b7852b855".
Proof. vm_compute. reflexivity. Qed.

Example sha512_empty :
  hexdigest (sha512 [])
  = "cf83e1357eefb8bdf1542850d66d8007d620e4050b5715dc83f4a921d36ce9ce47d0d13c5d85f2b0ff8318d2877eec2f63b931bd47417a81a538327af927da3e".
Proof. vm_compute. reflexivity. Qed.

Example md5_ten_zero_bytes :
  hexdigest (md5 (repeat x00 10)) = "a63c90cc3684ad8b0a2176a6a8fe9005".
Proof. vm_compute. reflexivity. Qed.

End HashlibFacts.

(** ** The interpreter *)

Lemma bind_ok {A B : Type} (c : Run.M A) (k : A -> Run.M B) w a w1 :
  c w = (Run.Ok a, w1) -> Run.bind c k w = k a w1.
Proof. intro H; unfold Run.bind; now rewrite H. Qed.

Lemma bind_raise {A B : Type} (c : Run.M A) (k : A -> Run.M B) w e w1 :
  c w = (Run.Raise e, w1) -> Run.bind c k w = (Run.Raise e, w1).
Proof. intro H; unfold Run.bind; now rewrite H. Qed.

Lemma bind_ok_inv {A B : Type} (c : Run.M A) (k : A -> Run.M B) w b w' :
  Run.bind c k w = (Run.Ok b, w') ->
  exists a w1, c w = (Run.Ok a, w1) /\ k a w1 = (Run.Ok b, w').
Proof.
  unfold Run.bind; destruct (c w) as [[a|e] w1]; intro H.
  - now exists a, w1.
  - discriminate.
Qed.

(** ** [str.split] and the enum labels *)

Lemma split_not_nil (sep : ascii) (s : string) : Py.split sep s <> [].
Proof.
  destruct s as [|c r]; simpl; [discriminate|].
  destruct (Ascii.eqb c sep); [discriminate|].
  destruct (Py.split sep r); discriminate.
Qed.

Lemma join_split (sep : ascii) (s : string) : join sep (Py.split sep s) = s.
Proof.
  induction s as [|c r IH]; [reflexivity|].
  simpl Py.split. destruct (Ascii.eqb c sep) eqn:E.
  - apply Ascii.eqb_eq in E; subst c.
    pose proof (split_not_nil sep r) as Hn.
    simpl. destruct (Py.split sep r) as [|w ws]; [contradiction|].
    now rewrite IH.
  - pose proof (split_not_nil sep r) as Hn.
    destruct (Py.split sep r) as [|w ws]; [contradiction|].
    simpl in *. destruct ws; simpl; now rewrite <- IH.
Qed.

Lemma split_no_sep (sep : ascii) (s : string) :
  Forall (fun w => contains sep w = false) (Py.split sep s).
Proof.
  induction s as [|c r IH]; simpl.
  - now constructor.
  - destruct (Ascii.eqb c sep) eqn:E.
    + now constructor.
    + destruct (Py.split sep r) as [|w ws]; [now repeat constructor; simpl; rewrite E|].
      inversion IH; subst. constructor; [simpl; now rewrite E | assumption].
Qed.

Lemma append_empty_r (s : string) : (s ++ EmptyString)%string = s.
Proof. induction s as [|c r IH]; simpl; [reflexivity | now rewrite IH]. Qed.

Lemma enum_label_eq (x : Lief.enum) (w : Run.world) :
  enum_label x w = (label_of x, w).
Proof.
  unfold enum_label, label_of.
  now destruct (Py.getitem (Py.split "." (Lief.str x)) 1).
Qed.

(** A label holds no separator, and is what stands between the first
    separator of the rendering and the next one (or the end). *)
Lemma label_of_shape (x : Lief.enum) (l : string) :
  label_of x = Run.Ok l ->
  contains "." l = false
  /\ exists ns rest,
       Lief.str x = (ns ++ String "." (l ++ rest))%string
       /\ contains "." ns = false
       /\ (rest = EmptyString \/ exists r, rest = String "." r).
Proof.
  unfold label_of, Py.getitem. intro H.
  pose proof (split_no_sep "." (Lief.str x)) as Hs.
  pose proof (join_split "." (Lief.str x)) as Hj.
  destruct (Py.split "." (Lief.str x)) as [|ns [|l' ws]]; simpl in H; try discriminate.
  injection H as ->.
  inversion Hs as [|? ? Hns Hs']; subst. inversion Hs' as [|? ? Hl _]; subst.
  split; [assumption|].
  destruct ws as [|w2 ws].
  - exists ns, EmptyString. simpl in Hj. rewrite <- Hj.
    split; [now rewrite append_empty_r |]. split; [assumption | now left].
  - exists ns, (String "." (join "." (w2 :: ws))).
    split; [now rewrite <- Hj |]. split; [assumption | right; eauto].
Qed.

Lemma split_no_sep_one (sep : ascii) (l : string) :
  contains sep l = false -> Py.split sep l = [l].
Proof.
  induction l as [|c r IH]; simpl; [reflexivity|].
  intro H. apply Bool.orb_false_iff in H as [Hc Hr].
  rewrite Hc, (IH Hr). reflexivity.
Qed.

(** A rendering of the form [namespace.label] has the label [label]. *)
Lemma label_of_qualified (ns l : string) :
  contains "." ns = false -> contains "." l = false ->
  label_of (Lief.Enum (ns ++ String "." l)) = Run.Ok l.
Proof.
  intros Hns Hl. unfold label_of, Py.getitem. cbn [Lief.str].
  assert (Hsplit : Py.split "." (ns ++ String "." l) = [ns; l]).
  { induction ns as [|c r IH].
    - cbn [append Py.split]. rewrite Ascii.eqb_refl.
      now rewrite (split_no_sep_one "." l Hl).
    - cbn [append Py.split]. simpl in Hns.
      apply Bool.orb_false_iff in Hns as [Hc Hr].
      rewrite Hc, (IH Hr). reflexivity. }
  rewrite Hsplit. reflexivity.
Qed.

(** ** [ELFSectionObject] *)
Section SectionObject.
Variable pydeep : option Pydeep.module.

Lemma add_attribute_add_attributes self rel v :
  ELFSectionObject.add_attribute self rel v = add_attributes self [attr rel v].
Proof. reflexivity. Qed.

Lemma add_attributes_app self l1 l2 :
  add_attributes (add_attributes self l1) l2 = add_attributes self (l1 ++ l2).
Proof. unfold add_attributes; simpl. now rewrite <- List.app_assoc. Qed.

(** The loop of lines 107-108 adds one [flag] attribute per flag, or
    raises at the first rendering without a second component. *)
Lemma flags_loop_eq (flags : list Lief.enum) (self : ELFSectionObject.t) (w : Run.world) :
  Run.for_ flags flag_step self w
  = (match labels_of flags with
     | Run.Ok ls => Run.Ok (add_attributes self (flag_attributes ls))
     | Run.Raise e => Run.Raise e
     end, w).
Proof.
  revert self; induction flags as [|x r IH]; intro self; simpl.
  - unfold Run.ret, add_attributes; simpl. rewrite List.app_nil_r.
    now destruct self as [[] ? ?].
  - unfold flag_step at 1, Run.bind at 1 2. rewrite enum_label_eq.
    destruct (label_of x) as [a|e]; [|reflexivity].
    unfold Run.ret at 1. rewrite IH.
    destruct (labels_of r) as [ls|e]; [|reflexivity].
    now rewrite add_attribute_add_attributes, add_attributes_app.
Qed.

Lemma add_ssdeep_eq (self : ELFSectionObject.t) (w : Run.world) :
  ELFSectionObject.add_ssdeep pydeep self w
  = (match ssdeep_attributes pydeep (ELFSectionObject.__data self) with
     | Run.Ok ss => Run.Ok (add_attributes self ss)
     | Run.Raise e => Run.Raise e
     end, w).
Proof.
  unfold ELFSectionObject.add_ssdeep, ssdeep_attributes, HAS_PYDEEP.
  destruct pydeep as [m|].
  - destruct (Py.decode _); reflexivity.
  - unfold Run.ret, add_attributes; simpl. rewrite List.app_nil_r.
    now destruct self as [[] ? ?].
Qed.

Lemma generate_attributes_eq (self : ELFSectionObject.t) (w : Run.world) :
  ELFSectionObject.__data self = Lief.content (ELFSectionObject.__section self) ->
  ELFSectionObject.generate_attributes pydeep self w
  = (match section_attributes pydeep (ELFSectionObject.__section self) with
     | Run.Ok attrs => Run.Ok (add_attributes self attrs)
     | Run.Raise e => Run.Raise e
     end, w).
Proof.
  intro Hdata.
  unfold ELFSectionObject.generate_attributes, section_attributes.
  cbv zeta. cbn [ELFSectionObject.__section ELFSectionObject.__data
                 ELFSectionObject.add_attribute].
  unfold Run.bind at 1. rewrite enum_label_eq.
  destruct (label_of (Lief.type (ELFSectionObject.__section self))) as [ty|e];
    [|reflexivity].
  unfold Run.bind at 1.
  change (Run.for_ ?l _ ?s) with (Run.for_ l flag_step s).
  rewrite flags_loop_eq.
  destruct (labels_of (Lief.flags_list (ELFSectionObject.__section self))) as [ls|e];
    [|reflexivity].
  cbn [ELFSectionObject.__section ELFSectionObject.__data
       ELFSectionObject.add_attribute add_attributes].
  destruct (0 <? Lief.size (ELFSectionObject.__section self))%Z; cbv beta iota.
  - rewrite add_ssdeep_eq.
    cbn [ELFSectionObject.__section ELFSectionObject.__data
         ELFSectionObject.add_attribute add_attributes].
    rewrite Hdata.
    destruct (ssdeep_attributes pydeep _) as [ss|e]; [|reflexivity].
    unfold add_attributes, MISP.add_attribute, digest_attributes, attr; simpl.
    rewrite <- !List.app_assoc. reflexivity.
  - unfold Run.ret, add_attributes, ELFSectionObject.add_attribute,
      MISP.add_attribute, attr; simpl.
    rewrite <- !List.app_assoc. reflexivity.
Qed.

(** The constructor computes [section_attributes], draws one identifier
    and reads the content of the section once, whether it returns or
    raises. *)
Lemma ELFSectionObject_init_eq (s : Lief.Section) (kw : MISP.kwargs) (w : Run.world) :
  ELFSectionObject.__init__ pydeep s kw w
  = (match section_attributes pydeep s with
     | Run.Ok attrs => Run.Ok (section_object (Run.next_uuid w) kw s attrs)
     | Run.Raise e => Run.Raise e
     end, after_section s w).
Proof.
  unfold ELFSectionObject.__init__, MISP.__init__.
  unfold Run.bind at 1 2 3, Run.fresh_uuid, Run.ret at 1, Run.emit.
  rewrite generate_attributes_eq by reflexivity. simpl ELFSectionObject.__section.
  destruct (section_attributes pydeep s); reflexivity.
Qed.

End SectionObject.

(** ** [ELFObject]: the loop over the sections *)
Section SectionsLoop.
Variable pydeep : option Pydeep.module.

Lemma with_sections_nil self pos : with_sections self pos [] = self.
Proof.
  unfold with_sections; simpl. rewrite !List.app_nil_r.
  now destruct self as [[] ? ?].
Qed.

(** The loop builds one section object per named section, in order, and
    adds one reference for each; sections without a name change
    nothing. *)
Lemma sections_loop_ok (secs : list Lief.Section) :
  forall self pos w st' w',
    Run.for_ secs (ELFObject.section_step pydeep) (self, pos) w = (Run.Ok st', w') ->
    exists objs,
      built pydeep (kwargs_of self) (Run.next_uuid w) (filter has_name secs) objs
      /\ st' = (with_sections self pos objs, (pos + Z.of_nat (List.length objs))%Z)
      /\ w' = after_sections (filter has_name secs) w.
Proof.
  induction secs as [|s r IH]; intros self pos w st' w' H.
  - simpl in H. injection H as <- <-. exists []. simpl.
    rewrite with_sections_nil, Z.add_0_r. repeat split.
    unfold after_sections; simpl. rewrite Nat.add_0_r, List.app_nil_r.
    now destruct w.
  - simpl Run.for_ in H. apply bind_ok_inv in H as (st1 & w1 & Hstep & Hrest).
    unfold ELFObject.section_step in Hstep. simpl filter. unfold has_name at 1 4.
    destruct (Py.nonempty (Lief.name s)); simpl negb in Hstep; cbv iota in Hstep.
    + apply bind_ok_inv in Hstep as (o & w2 & Hinit & Hret).
      rewrite ELFSectionObject_init_eq in Hinit.
      destruct (section_attributes pydeep s) as [attrs|e] eqn:Hattrs; [|discriminate].
      injection Hinit as <- <-. injection Hret as <- <-.
      apply IH in Hrest as (objs & Hbuilt & -> & ->).
      exists (section_object (Run.next_uuid w) (kwargs_of self) s attrs :: objs).
      split; [|split].
      * simpl. split; [exists attrs; now split|]. exact Hbuilt.
      * f_equal.
        -- unfold with_sections; simpl. now rewrite <- !List.app_assoc.
        -- simpl List.length. lia.
      * unfold after_sections, after_section; simpl.
        f_equal; [lia | now rewrite <- List.app_assoc].
    + injection Hstep as <- <-. now apply IH in Hrest.
Qed.

End SectionsLoop.

(** ** [ELFObject.generate_attributes] and [ELFObject.__init__] *)
Section BinaryObject.
Variable lief_ELF_parse : Run.parse_arg -> Run.result (option Lief.Binary).
Variable pydeep : option Pydeep.module.

(** Without [__elf], attribute generation raises at its first line and
    does nothing else. *)
Lemma generate_attributes_unset (self : ELFObject.t) (w : Run.world) :
  ELFObject.__elf self = None ->
  ELFObject.generate_attributes pydeep self w
  = (Run.Raise (Py.AttributeError no___elf), w).
Proof.
  intro H. unfold ELFObject.generate_attributes, Run.bind at 1, ELFObject.get___elf.
  now rewrite H.
Qed.

(** What a successful attribute generation leaves behind. *)
Lemma generate_attributes_ok (self o : ELFObject.t) (w w' : Run.world) :
  ELFObject.generate_attributes pydeep self w = (Run.Ok o, w') ->
  exists e l1 l2 l3 objs,
    ELFObject.__elf self = Some e
    /\ label_of (Lief.file_type (Lief.header e)) = Run.Ok l1
    /\ label_of (Lief.machine_type (Lief.header e)) = Run.Ok l2
    /\ label_of (Lief.identity_os_abi (Lief.header e)) = Run.Ok l3
    /\ built pydeep (kwargs_of self) (Run.next_uuid w) (named_sections e) objs
    /\ ELFObject.__elf o = Some e
    /\ ELFObject.sections o = objs
    /\ MISP.Attribute (ELFObject.base o)
       = (MISP.Attribute (ELFObject.base self)
            ++ [attr "type" (MISP.VStr l1);
                attr "entrypoint-address" (MISP.VInt (Lief.entrypoint e));
                attr "arch" (MISP.VStr l2);
                attr "os_abi" (MISP.VStr l3);
                attr "number-sections" (MISP.VInt (Z.of_nat (List.length objs)))])%list
    /\ MISP.ObjectReference (ELFObject.base o)
       = (MISP.ObjectReference (ELFObject.base self) ++ section_references 0 objs)%list
    /\ MISP.uuid (ELFObject.base o) = MISP.uuid (ELFObject.base self)
    /\ MISP.name (ELFObject.base o) = MISP.name (ELFObject.base self)
    /\ w' = after_sections (named_sections e) w.
Proof.
  destruct self as [b oe secs0]. destruct oe as [e|].
  2:{ intro H. rewrite generate_attributes_unset in H by reflexivity. discriminate. }
  unfold ELFObject.generate_attributes. cbv zeta.
  cbn [ELFObject.get___elf ELFObject.__elf ELFObject.add_attribute
       ELFObject.set_sections ELFObject.sections ELFObject.base].
  unfold Run.bind at 1, Run.ret at 1. unfold Run.bind at 1. rewrite enum_label_eq.
  destruct (label_of (Lief.file_type (Lief.header e))) as [l1|x] eqn:H1; [|discriminate].
  unfold Run.bind at 1, Run.ret at 1.
  unfold Run.bind at 1, Run.ret at 1. unfold Run.bind at 1. rewrite enum_label_eq.
  destruct (label_of (Lief.machine_type (Lief.header e))) as [l2|x] eqn:H2; [|discriminate].
  unfold Run.bind at 1, Run.ret at 1. unfold Run.bind at 1. rewrite enum_label_eq.
  destruct (label_of (Lief.identity_os_abi (Lief.header e))) as [l3|x] eqn:H3; [|discriminate].
  unfold Run.bind at 1, Run.ret at 1.
  intro H. apply bind_ok_inv in H as (self1 & w1 & Hloop & Hret).
  injection Hret as <- <-.
  exists e, l1, l2, l3.
  unfold named_sections.
  destruct (Lief.sections e) as [|s r] eqn:Hsecs.
  - injection Hloop as <- <-. exists []. simpl.
    repeat split; try reflexivity; try assumption.
    + now rewrite <- !List.app_assoc.
    + now rewrite List.app_nil_r.
    + unfold after_sections; simpl. rewrite Nat.add_0_r, List.app_nil_r. now destruct w.
  - unfold Run.bind at 1, Run.ret at 1 in Hloop.
    apply bind_ok_inv in Hloop as (st & w2 & Hfor & Hret).
    injection Hret as <- <-.
    apply sections_loop_ok in Hfor as (objs & Hbuilt & -> & ->).
    exists objs. rewrite <- Hsecs. simpl.
    repeat split; try reflexivity; try assumption.
    now rewrite <- !List.app_assoc.
Qed.

End BinaryObject.

(** ** Reading the attributes of a section object *)

Lemma filter_flag_attributes (p : string -> bool) (ls : list string) :
  filter (fun a => p (MISP.object_relation a)) (flag_attributes ls)
  = if p "flag" then flag_attributes ls else [].
Proof.
  induction ls as [|l r IH]; simpl.
  - now destruct (p "flag").
  - rewrite IH. now destruct (p "flag").
Qed.

Lemma existsb_flag_attributes (p : string -> bool) (ls : list string) :
  p "flag" = false ->
  existsb (fun a => p (MISP.object_relation a)) (flag_attributes ls) = false.
Proof. intro H. induction ls as [|l r IH]; simpl; [reflexivity | now rewrite H, IH]. Qed.

Lemma map_value_flag_attributes (ls : list string) :
  map MISP.attribute_value (flag_attributes ls) = map MISP.VStr ls.
Proof. induction ls as [|l r IH]; simpl; [reflexivity | now rewrite IH]. Qed.

Lemma length_labels_of (flags : list Lief.enum) (ls : list string) :
  labels_of flags = Run.Ok ls -> List.length ls = List.length flags.
Proof.
  revert ls; induction flags as [|x r IH]; intros ls H; simpl in H.
  - now injection H as <-.
  - destruct (label_of x); [|discriminate].
    destruct (labels_of r) as [ls'|]; [|discriminate].
    injection H as <-. simpl. now rewrite (IH ls').
Qed.

(** A section object that was returned is [section_object] of what
    [section_attributes] computes. *)
Lemma ELFSectionObject_init_ok pydeep s kw w o w' :
  ELFSectionObject.__init__ pydeep s kw w = (Run.Ok o, w') ->
  exists attrs,
    section_attributes pydeep s = Run.Ok attrs
    /\ o = section_object (Run.next_uuid w) kw s attrs
    /\ w' = after_section s w.
Proof.
  rewrite ELFSectionObject_init_eq.
  destruct (section_attributes pydeep s) as [attrs|e]; [|discriminate].
  intro H; injection H as <- <-. now exists attrs.
Qed.

(** The attributes of a section object, by cases on its size. *)
Lemma section_attributes_ok pydeep s attrs :
  section_attributes pydeep s = Run.Ok attrs ->
  exists ty ls,
    label_of (Lief.type s) = Run.Ok ty
    /\ labels_of (Lief.flags_list s) = Run.Ok ls
    /\ ((0 < Lief.size s)%Z ->
        exists ss,
          ssdeep_attributes pydeep (Lief.content s) = Run.Ok ss
          /\ attrs = ([attr "name" (MISP.VStr (Lief.name s)); attr "type" (MISP.VStr ty)]
                        ++ flag_attributes ls
                        ++ [attr "size-in-bytes" (MISP.VInt (Lief.size s))]
                        ++ digest_attributes (Lief.entropy s) (Lief.content s)
                        ++ ss)%list)
    /\ ((Lief.size s <= 0)%Z ->
        attrs = ([attr "name" (MISP.VStr (Lief.name s)); attr "type" (MISP.VStr ty)]
                   ++ flag_attributes ls
                   ++ [attr "size-in-bytes" (MISP.VInt (Lief.size s))])%list).
Proof.
  unfold section_attributes. intro H.
  destruct (label_of (Lief.type s)) as [ty|]; [|discriminate].
  destruct (labels_of (Lief.flags_list s)) as [ls|]; [|discriminate].
  exists ty, ls. split; [reflexivity|]. split; [reflexivity|].
  destruct (0 <? Lief.size s)%Z eqn:E.
  - apply Z.ltb_lt in E.
    destruct (ssdeep_attributes pydeep (Lief.content s)) as [ss|]; [|discriminate].
    injection H as <-. split; [|lia].
    intros _. exists ss. split; [reflexivity|].
    simpl. now rewrite <- !List.app_assoc.
  - apply Z.ltb_ge in E. injection H as <-. split; [lia|]. intros _. reflexivity.
Qed.

Lemma ssdeep_attributes_ok pydeep data ss :
  ssdeep_attributes pydeep data = Run.Ok ss ->
  match pydeep with
  | None => ss = []
  | Some m =>
      exists d, Py.decode (Pydeep.hash_buf m data) = Some d
                /\ ss = [attr "ssdeep" (MISP.VStr d)]
  end.
Proof.
  unfold ssdeep_attributes. destruct pydeep as [m|].
  - destruct (Py.decode _) as [d|]; [|discriminate].
    intro H; injection H as <-. now exists d.
  - intro H; now injection H as <-.
Qed.

Lemma get_flag_attributes (rel : string) (ls : list string) :
  filter (fun a => String.eqb (MISP.object_relation a) rel) (flag_attributes ls)
  = if String.eqb "flag" rel then flag_attributes ls else [].
Proof. exact (filter_flag_attributes (fun r => String.eqb r rel) ls). Qed.

Lemma has_flag_attributes (rel : string) (ls : list string) :
  String.eqb "flag" rel = false ->
  existsb (fun a => String.eqb (MISP.object_relation a) rel) (flag_attributes ls) = false.
Proof. exact (existsb_flag_attributes (fun r => String.eqb r rel) ls). Qed.

Lemma relations_flag_attributes (ls : list string) :
  map MISP.object_relation (flag_attributes ls) = repeat "flag" (List.length ls).
Proof. induction ls as [|l r IH]; simpl; [reflexivity | now rewrite IH]. Qed.

(** Reads the attributes of an explicit attribute list by name. *)
Ltac read_attributes :=
  unfold MISP.get_attributes_by_relation, MISP.has_attribute, section_object,
    digest_attributes;
  cbn [MISP.Attribute ELFSectionObject.base ELFSectionObject.__data];
  rewrite ?List.filter_app, ?List.existsb_app, ?List.map_app,
    ?get_flag_attributes, ?relations_flag_attributes;
  rewrite ?has_flag_attributes by reflexivity;
  cbn.

(** C1.  A section object built for a section whose size is greater than
    zero has, after [name], [type], the flags, [size-in-bytes] and
    [entropy], exactly the attributes [md5], [sha1], [sha256] and [sha512],
    once each, followed only by [ssdeep] when pydeep was imported.  Each is
    the hexadecimal digest of the content the parser reports for the
    section, of 32, 40, 64 and 128 characters; the content is read once, on
    construction, and kept in [__data], from which the four digests are
    computed. *)
Theorem section_digests_of_content
    (pydeep : option Pydeep.module) (s : Lief.Section) (kw : MISP.kwargs)
    (w w' : Run.world) (o : ELFSectionObject.t) :
  ELFSectionObject.__init__ pydeep s kw w = (Run.Ok o, w') ->
  (0 < Lief.size s)%Z ->
  let get := MISP.get_attributes_by_relation (ELFSectionObject.base o) in
  let data := Lief.content s in
  map MISP.object_relation (MISP.Attribute (ELFSectionObject.base o))
  = (["name"; "type"] ++ repeat "flag" (List.length (Lief.flags_list s))
       ++ ["size-in-bytes"; "entropy"; "md5"; "sha1"; "sha256"; "sha512"]
       ++ (if HAS_PYDEEP pydeep then ["ssdeep"] else []))%list
  /\ get "md5" = [MISP.VStr (Hashlib.hexdigest (Hashlib.md5 data))]
  /\ get "sha1" = [MISP.VStr (Hashlib.hexdigest (Hashlib.sha1 data))]
  /\ get "sha256" = [MISP.VStr (Hashlib.hexdigest (Hashlib.sha256 data))]
  /\ get "sha512" = [MISP.VStr (Hashlib.hexdigest (Hashlib.sha512 data))]
  /\ String.length (Hashlib.hexdigest (Hashlib.md5 data)) = 32%nat
  /\ String.length (Hashlib.hexdigest (Hashlib.sha1 data)) = 40%nat
  /\ String.length (Hashlib.hexdigest (Hashlib.sha256 data)) = 64%nat
  /\ String.length (Hashlib.hexdigest (Hashlib.sha512 data)) = 128%nat
  /\ ELFSectionObject.__data o = data
  /\ Run.trace w' = (Run.trace w ++ [Run.SectionContent s])%list.
Proof.
  intros Hinit Hsize get data. subst get data.
  apply ELFSectionObject_init_ok in Hinit as (attrs & Hattrs & -> & ->).
  apply section_attributes_ok in Hattrs as (ty & ls & _ & Hls & Hpos & _).
  destruct (Hpos Hsize) as (ss & Hss & ->).
  apply length_labels_of in Hls. apply ssdeep_attributes_ok in Hss.
  assert (Hrel : map MISP.object_relation ss
                 = if HAS_PYDEEP pydeep then ["ssdeep"] else []).
  { destruct pydeep as [m|]; [destruct Hss as (d & _ & ->) | subst ss]; reflexivity. }
  assert (Hget : forall rel, String.eqb "ssdeep" rel = false ->
            filter (fun a => String.eqb (MISP.object_relation a) rel) ss = []).
  { intros rel Hrel'.
    destruct pydeep as [m|]; [destruct Hss as (d & _ & ->) | subst ss];
      unfold attr; cbn [filter MISP.object_relation];
      [now rewrite Hrel' | reflexivity]. }
  repeat split.
  - read_attributes. now rewrite Hrel, Hls.
  - read_attributes. now rewrite Hget.
  - read_attributes. now rewrite Hget.
  - read_attributes. now rewrite Hget.
  - read_attributes. now rewrite Hget.
  - apply HashlibFacts.length_hexdigest_md5.
  - apply HashlibFacts.length_hexdigest_sha1.
  - apply HashlibFacts.length_hexdigest_sha256.
  - apply HashlibFacts.length_hexdigest_sha512.
Qed.

(** C2.  A section object built for a section of size zero has the
    attributes [name], [type], one [flag] per flag of the section and
    [size-in-bytes], and no other: none of [entropy], [md5], [sha1],
    [sha256], [sha512] and [ssdeep]. *)
Theorem empty_section_has_no_digests
    (pydeep : option Pydeep.module) (s : Lief.Section) (kw : MISP.kwargs)
    (w w' : Run.world) (o : ELFSectionObject.t) :
  ELFSectionObject.__init__ pydeep s kw w = (Run.Ok o, w') ->
  Lief.size s = 0%Z ->
  let has := MISP.has_attribute (ELFSectionObject.base o) in
  let get := MISP.get_attributes_by_relation (ELFSectionObject.base o) in
  has "entropy" = false /\ has "md5" = false /\ has "sha1" = false
  /\ has "sha256" = false /\ has "sha512" = false /\ has "ssdeep" = false
  /\ map MISP.object_relation (MISP.Attribute (ELFSectionObject.base o))
     = (["name"; "type"] ++ repeat "flag" (List.length (Lief.flags_list s))
          ++ ["size-in-bytes"])%list
  /\ get "name" = [MISP.VStr (Lief.name s)]
  /\ (exists ty, label_of (Lief.type s) = Run.Ok ty /\ get "type" = [MISP.VStr ty])
  /\ (exists ls, labels_of (Lief.flags_list s) = Run.Ok ls
                 /\ get "flag" = map MISP.VStr ls)
  /\ get "size-in-bytes" = [MISP.VInt 0].
Proof.
  intros Hinit Hsize has get. subst has get.
  apply ELFSectionObject_init_ok in Hinit as (attrs & Hattrs & -> & ->).
  apply section_attributes_ok in Hattrs as (ty & ls & Hty & Hls & _ & Hzero).
  rewrite (Hzero ltac:(lia)). clear Hzero.
  pose proof (length_labels_of _ _ Hls) as Hlen.
  repeat split.
  - now read_attributes.
  - now read_attributes.
  - now read_attributes.
  - now read_attributes.
  - now read_attributes.
  - now read_attributes.
  - read_attributes. now rewrite Hlen.
  - now read_attributes.
  - exists ty. split; [assumption|]. now read_attributes.
  - exists ls. split; [assumption|]. read_attributes.
    now rewrite List.app_nil_r, map_value_flag_attributes.
  - read_attributes. now rewrite Hsize.
Qed.

(** C8.  For a section whose size is greater than zero, a section object
    that was built has an [ssdeep] attribute exactly when pydeep was
    imported ([HAS_PYDEEP]), and then a single one, whose value is the
    decoded output of [pydeep.hash_buf] on the content of the section.
    Without pydeep nothing stands in its place and nothing is raised for
    it: whenever the construction succeeds with pydeep it succeeds without,
    in the same world, on the same attributes less the last. *)
Theorem ssdeep_iff_pydeep (s : Lief.Section) (kw : MISP.kwargs) (w : Run.world) :
  (0 < Lief.size s)%Z ->
  (forall pydeep o w',
      ELFSectionObject.__init__ pydeep s kw w = (Run.Ok o, w') ->
      MISP.has_attribute (ELFSectionObject.base o) "ssdeep" = HAS_PYDEEP pydeep
      /\ match pydeep with
         | Some m =>
             exists d,
               Py.decode (Pydeep.hash_buf m (Lief.content s)) = Some d
               /\ MISP.get_attributes_by_relation (ELFSectionObject.base o) "ssdeep"
                  = [MISP.VStr d]
         | None =>
             MISP.get_attributes_by_relation (ELFSectionObject.base o) "ssdeep" = []
         end)
  /\ (forall m o w',
         ELFSectionObject.__init__ (Some m) s kw w = (Run.Ok o, w') ->
         exists o' d,
           ELFSectionObject.__init__ None s kw w = (Run.Ok o', w')
           /\ MISP.Attribute (ELFSectionObject.base o)
              = (MISP.Attribute (ELFSectionObject.base o')
                   ++ [attr "ssdeep" (MISP.VStr d)])%list).
Proof.
  intro Hsize. split.
  - intros pydeep o w' Hinit.
    apply ELFSectionObject_init_ok in Hinit as (attrs & Hattrs & -> & ->).
    apply section_attributes_ok in Hattrs as (ty & ls & _ & _ & Hpos & _).
    destruct (Hpos Hsize) as (ss & Hss & ->).
    apply ssdeep_attributes_ok in Hss.
    destruct pydeep as [m|].
    + destruct Hss as (d & Hd & ->). split; [now read_attributes|].
      exists d. split; [assumption|]. now read_attributes.
    + subst ss. split; now read_attributes.
  - intros m o w' Hinit.
    apply ELFSectionObject_init_ok in Hinit as (attrs & Hattrs & -> & ->).
    pose proof Hattrs as Hshape.
    apply section_attributes_ok in Hshape as (ty & ls & Hty & Hls & Hpos & _).
    destruct (Hpos Hsize) as (ss & Hss & ->).
    apply ssdeep_attributes_ok in Hss as (d & Hd & ->).
    eexists (section_object (Run.next_uuid w) kw s _), d.
    rewrite ELFSectionObject_init_eq. unfold section_attributes.
    rewrite Hty, Hls. apply Z.ltb_lt in Hsize. rewrite Hsize.
    cbn [ssdeep_attributes]. split; [reflexivity|].
    cbn [section_object MISP.Attribute ELFSectionObject.base].
    rewrite List.app_nil_r, <- !List.app_assoc. reflexivity.
Qed.

(** Splits a goal about [resolved] by the cases of lines 50-70. *)
Ltac resolved_cases :=
  unfold resolved;
  match goal with
  | |- context [Py.truthy ?ps] =>
      destruct (Py.truthy ps) eqn:?;
      [ match goal with
        | |- context [parse_arg_of ?p] =>
            destruct (parse_arg_of p) as [?arg|] eqn:?;
            [ match goal with
              | |- context [?f arg] => destruct (f arg) as [[?e|]|?x] eqn:?
              end | ]
        end
      | match goal with
        | |- context [Py.truthy ?fp] =>
            destruct (Py.truthy fp) eqn:?;
            [ match goal with
              | |- context [?f (Run.ParsePath fp)] =>
                  destruct (f (Run.ParsePath fp)) as [[?e|]|?x] eqn:?
              end
            | match goal with
              | |- context [Py.truthy ?pa] =>
                  destruct (Py.truthy pa) eqn:?; [destruct pa|]
              end ]
        end ]
  end.

(** ** [ELFObject.__init__] *)
Section Construction.
Variable lief_ELF_parse : Run.parse_arg -> Run.result (option Lief.Binary).
Variable pydeep : option Pydeep.module.

Local Abbreviation resolve_input := (ELFObject.resolve_input lief_ELF_parse).
Local Abbreviation init := (ELFObject.__init__ lief_ELF_parse pydeep).

(** Input resolution, written out. *)
Lemma resolve_input_eq self parsed filepath pseudofile w :
  resolve_input self parsed filepath pseudofile w
  = resolved lief_ELF_parse self parsed filepath pseudofile w.
Proof.
  unfold ELFObject.resolve_input, ELFObject.parse, resolved, parsed_with.
  destruct (Py.truthy pseudofile).
  - destruct pseudofile; cbn; try reflexivity;
      match goal with
      | |- context [lief_ELF_parse ?a] => destruct (lief_ELF_parse a) as [[e|]|x]
      end; reflexivity.
  - destruct (Py.truthy filepath).
    + cbn. destruct (lief_ELF_parse _) as [[e|]|x]; reflexivity.
    + destruct (Py.truthy parsed); [destruct parsed|]; reflexivity.
Qed.

(** Input resolution touches nothing of [self] but [__elf]. *)
Lemma resolve_input_ok self parsed filepath pseudofile w self' w' :
  resolve_input self parsed filepath pseudofile w = (Run.Ok self', w') ->
  ELFObject.base self' = ELFObject.base self
  /\ ELFObject.sections self' = ELFObject.sections self
  /\ Run.next_uuid w' = Run.next_uuid w.
Proof.
  rewrite resolve_input_eq.
  resolved_cases; intro H; inversion H; subst; now repeat split.
Qed.

(** Only the first truthy input among [pseudofile], [filepath] and
    [parsed], in this order, is looked at. *)
Lemma resolve_input_precedence self parsed filepath pseudofile w :
  resolve_input self parsed filepath pseudofile w
  = if Py.truthy pseudofile then resolve_input self Py.PyNone Py.PyNone pseudofile w
    else if Py.truthy filepath then resolve_input self Py.PyNone filepath Py.PyNone w
    else resolve_input self parsed Py.PyNone Py.PyNone w.
Proof.
  unfold ELFObject.resolve_input.
  destruct (Py.truthy pseudofile) eqn:Hp; [reflexivity|].
  destruct (Py.truthy filepath) eqn:Hf; reflexivity.
Qed.

(** With no truthy input, input resolution returns and leaves [self] as it
    was. *)
Lemma resolve_input_nothing self parsed filepath pseudofile w :
  Py.truthy pseudofile = false -> Py.truthy filepath = false ->
  Py.truthy parsed = false ->
  resolve_input self parsed filepath pseudofile w = (Run.Ok self, w).
Proof.
  intros Hp Hf Ha. unfold ELFObject.resolve_input.
  now rewrite Hp, Hf, Ha.
Qed.

(** The constructor is input resolution followed by attribute
    generation. *)
Lemma init_eq parsed filepath pseudofile kw w :
  init parsed filepath pseudofile kw w
  = Run.bind (resolve_input (blank kw w) parsed filepath pseudofile)
      (ELFObject.generate_attributes pydeep) (started pydeep w).
Proof.
  unfold ELFObject.__init__, MISP.__init__, started, blank.
  unfold Run.bind at 1 2 3, Run.fresh_uuid, Run.ret at 1.
  destruct pydeep as [m|]; cbn [HAS_PYDEEP negb].
  - unfold Run.ret at 1. cbn [Run.next_uuid Run.trace].
    now rewrite List.app_nil_r.
  - unfold Run.emit. reflexivity.
Qed.

(** What a successful construction leaves behind. *)
Lemma init_ok parsed filepath pseudofile kw w o w' :
  init parsed filepath pseudofile kw w = (Run.Ok o, w') ->
  exists e l1 l2 l3,
    ELFObject.__elf o = Some e
    /\ label_of (Lief.file_type (Lief.header e)) = Run.Ok l1
    /\ label_of (Lief.machine_type (Lief.header e)) = Run.Ok l2
    /\ label_of (Lief.identity_os_abi (Lief.header e)) = Run.Ok l3
    /\ built pydeep kw (S (Run.next_uuid w)) (named_sections e) (ELFObject.sections o)
    /\ MISP.Attribute (ELFObject.base o)
       = [attr "type" (MISP.VStr l1);
          attr "entrypoint-address" (MISP.VInt (Lief.entrypoint e));
          attr "arch" (MISP.VStr l2);
          attr "os_abi" (MISP.VStr l3);
          attr "number-sections"
            (MISP.VInt (Z.of_nat (List.length (ELFObject.sections o))))]
    /\ MISP.ObjectReference (ELFObject.base o)
       = section_references 0 (ELFObject.sections o)
    /\ MISP.uuid (ELFObject.base o) = Run.next_uuid w
    /\ exists pre,
         Run.trace w' = (pre ++ map Run.SectionContent (named_sections e))%list.
Proof.
  rewrite init_eq. intro H.
  apply bind_ok_inv in H as (self & w1 & Hres & Hgen).
  apply resolve_input_ok in Hres as (Hbase & Hsecs & Huuid).
  apply generate_attributes_ok in Hgen
    as (e & l1 & l2 & l3 & objs & _ & H1 & H2 & H3 & Hbuilt & Helf & Hobjs
        & Hattr & Href & Hu & _ & ->).
  exists e, l1, l2, l3. rewrite Hobjs.
  rewrite Hbase in Hattr, Href, Hu. unfold kwargs_of in Hbuilt. rewrite Hbase in Hbuilt.
  rewrite Huuid in Hbuilt. cbn in Hattr, Href, Hu, Hbuilt.
  repeat split; try assumption.
  - now destruct kw.
  - exists (Run.trace w1). reflexivity.
Qed.

End Construction.

(** ** The section objects of a binary *)

Lemma built_length pydeep kw u secs objs :
  built pydeep kw u secs objs -> List.length objs = List.length secs.
Proof.
  revert u objs; induction secs as [|s r IH]; intros u [|o os] H; simpl in *;
    try contradiction; [reflexivity|].
  destruct H as [_ H]. now rewrite (IH _ _ H).
Qed.

Lemma built_sections pydeep kw u secs objs :
  built pydeep kw u secs objs -> map ELFSectionObject.__section objs = secs.
Proof.
  revert u objs; induction secs as [|s r IH]; intros u [|o os] H; simpl in *;
    try contradiction; [reflexivity|].
  destruct H as [(attrs & _ & ->) H]. simpl. now rewrite (IH _ _ H).
Qed.

(** Each section object is what the constructor returns for its section
    when the identifier supply stands at its position. *)
Lemma built_nth pydeep kw u secs objs i so :
  built pydeep kw u secs objs ->
  nth_error objs i = Some so ->
  nth_error secs i = Some (ELFSectionObject.__section so)
  /\ forall t,
       fst (ELFSectionObject.__init__ pydeep (ELFSectionObject.__section so) kw
              {| Run.next_uuid := u + i; Run.trace := t |})
       = Run.Ok so.
Proof.
  revert u objs i; induction secs as [|s r IH]; intros u [|o os] i H Hn; simpl in H;
    try contradiction.
  - now destruct i.
  - destruct H as [(attrs & Hattrs & ->) H]. destruct i as [|i]; simpl in Hn.
    + injection Hn as <-. simpl. split; [reflexivity|]. intro t.
      rewrite ELFSectionObject_init_eq, Hattrs. simpl. now rewrite Nat.add_0_r.
    + destruct (IH _ _ _ H Hn) as [Hs Hi]. split; [exact Hs|].
      intro t. rewrite <- (Hi t). now rewrite Nat.add_succ_r.
Qed.

Lemma built_Forall pydeep kw u secs objs (P : ELFSectionObject.t -> Prop) :
  (forall u s attrs, section_attributes pydeep s = Run.Ok attrs ->
                     P (section_object u kw s attrs)) ->
  built pydeep kw u secs objs -> Forall P objs.
Proof.
  intro HP. revert u objs; induction secs as [|s r IH]; intros u [|o os] H; simpl in H;
    try contradiction; [constructor|].
  destruct H as [(attrs & Hattrs & ->) H]. constructor; [now apply HP | eauto].
Qed.

Lemma section_references_length pos objs :
  List.length (section_references pos objs) = List.length objs.
Proof.
  revert pos; induction objs as [|o r IH]; intro pos; simpl; [reflexivity|].
  now rewrite IH.
Qed.

Lemma section_references_uuid pos objs :
  map MISP.referenced_uuid (section_references pos objs)
  = map (fun o => MISP.uuid (ELFSectionObject.base o)) objs.
Proof.
  revert pos; induction objs as [|o r IH]; intro pos; simpl; [reflexivity|].
  now rewrite IH.
Qed.

Lemma section_references_nth pos objs i so :
  nth_error objs i = Some so ->
  nth_error (section_references pos objs) i
  = Some (section_reference (pos + Z.of_nat i) so).
Proof.
  revert pos i; induction objs as [|o r IH]; intros pos i H.
  - now destruct i.
  - destruct i as [|i]; simpl in *.
    + injection H as <-. now rewrite Z.add_0_r.
    + rewrite (IH _ _ H). f_equal. f_equal. lia.
Qed.

Lemma labels_of_Forall2 flags ls :
  labels_of flags = Run.Ok ls ->
  Forall2 (fun x l => forall w, enum_label x w = (Run.Ok l, w)) flags ls
  /\ Forall (fun l => contains "." l = false) ls.
Proof.
  revert ls; induction flags as [|x r IH]; intros ls H; simpl in H.
  - injection H as <-. split; constructor.
  - destruct (label_of x) as [a|] eqn:Ha; [|discriminate].
    destruct (labels_of r) as [ls'|]; [|discriminate].
    injection H as <-. destruct (IH _ eq_refl) as [H2 HF]. split.
    + constructor; [|exact H2]. intro w. now rewrite enum_label_eq, Ha.
    + constructor; [|exact HF]. now apply label_of_shape in Ha.
Qed.

Lemma section_object_labels_bare pydeep u kw s attrs :
  section_attributes pydeep s = Run.Ok attrs ->
  section_labels_bare (section_object u kw s attrs).
Proof.
  intro Hattrs. pose proof Hattrs as Hshape.
  apply section_attributes_ok in Hshape as (ty & ls & Hty & Hls & Hpos & Hzero).
  destruct (labels_of_Forall2 _ _ Hls) as [H2 HF].
  exists ty, ls. cbn [section_object ELFSectionObject.__section].
  split; [intro w; now rewrite enum_label_eq, Hty|].
  split; [exact H2|].
  assert (Hss : forall ss, ssdeep_attributes pydeep (Lief.content s) = Run.Ok ss ->
            forall rel, String.eqb "ssdeep" rel = false ->
            filter (fun a => String.eqb (MISP.object_relation a) rel) ss = []).
  { intros ss H rel Hrel. apply ssdeep_attributes_ok in H.
    destruct pydeep as [m|]; [destruct H as (d & _ & ->) | subst ss];
      unfold attr; cbn [filter MISP.object_relation];
      [now rewrite Hrel | reflexivity]. }
  destruct (Z.lt_ge_cases 0 (Lief.size s)) as [Hlt|Hge].
  - destruct (Hpos Hlt) as (ss & Hssd & ->).
    split; [|split; [|split]].
    + read_attributes. now rewrite (Hss ss Hssd).
    + read_attributes. rewrite (Hss ss Hssd) by reflexivity.
      now rewrite List.app_nil_r, map_value_flag_attributes.
    + now apply label_of_shape in Hty.
    + exact HF.
  - rewrite (Hzero Hge).
    split; [|split; [|split]].
    + now read_attributes.
    + read_attributes. now rewrite List.app_nil_r, map_value_flag_attributes.
    + now apply label_of_shape in Hty.
    + exact HF.
Qed.

(** ** The binary object *)

(** C3.  An ELF object that was built has one [number-sections] attribute,
    whose value is the number of section objects it holds; these are the
    section objects of the sections with a non-empty name, in order, and
    the references of the object point to them and to nothing else. *)
Theorem number_sections_counts_section_objects
    (lief_ELF_parse : Run.parse_arg -> Run.result (option Lief.Binary))
    (pydeep : option Pydeep.module) (parsed filepath pseudofile : Py.object)
    (kw : MISP.kwargs) (w w' : Run.world) (o : ELFObject.t) :
  ELFObject.__init__ lief_ELF_parse pydeep parsed filepath pseudofile kw w
  = (Run.Ok o, w') ->
  exists e,
    ELFObject.__elf o = Some e
    /\ MISP.get_attributes_by_relation (ELFObject.base o) "number-sections"
       = [MISP.VInt (Z.of_nat (List.length (ELFObject.sections o)))]
    /\ List.length (ELFObject.sections o)
       = List.length (filter has_name (Lief.sections e))
    /\ map ELFSectionObject.__section (ELFObject.sections o)
       = filter has_name (Lief.sections e)
    /\ Forall (fun so => Lief.name (ELFSectionObject.__section so) <> EmptyString)
         (ELFObject.sections o)
    /\ map MISP.referenced_uuid (MISP.ObjectReference (ELFObject.base o))
       = map (fun so => MISP.uuid (ELFSectionObject.base so)) (ELFObject.sections o).
Proof.
  intro H.
  apply init_ok in H as (e & l1 & l2 & l3 & He & _ & _ & _ & Hbuilt & Hattr & Href & _).
  exists e. split; [exact He|].
  pose proof (built_sections _ _ _ _ _ Hbuilt) as Hsecs. unfold named_sections in Hsecs.
  split; [|split; [|split; [|split]]].
  - unfold MISP.get_attributes_by_relation. rewrite Hattr. reflexivity.
  - rewrite <- Hsecs. now rewrite List.length_map.
  - exact Hsecs.
  - apply Forall_forall. intros so Hin.
    assert (Hin' : In (ELFSectionObject.__section so)
                     (filter has_name (Lief.sections e))).
    { rewrite <- Hsecs. now apply in_map. }
    apply filter_In in Hin' as [_ Hn]. unfold has_name in Hn.
    intro Hempty. rewrite Hempty in Hn. discriminate.
  - rewrite Href. apply section_references_uuid.
Qed.

(** C6.  [enum_label] turns the rendering ["ELF.EXE"] into ["EXE"], and
    every rendering of the form [namespace.label] into [label].  Whatever
    it returns holds no separator, and is the part of the rendering after
    its first separator, up to the next one if there is one.  The attributes [type], [arch] and [os_abi] of an ELF object and
    [type] and [flag] of a section object hold what [enum_label] returns
    for the file type, the machine type and the OS ABI of the binary, and
    for the type and the flags of the section. *)
Theorem enum_labels_are_bare :
  (forall w, enum_label (Lief.Enum "ELF.EXE") w = (Run.Ok "EXE", w))
  /\ (forall ns l w,
         contains "." ns = false -> contains "." l = false ->
         enum_label (Lief.Enum (ns ++ String "." l)) w = (Run.Ok l, w))
  /\ (forall x l w w',
         enum_label x w = (Run.Ok l, w') ->
         contains "." l = false
         /\ exists ns rest,
              Lief.str x = (ns ++ String "." (l ++ rest))%string
              /\ contains "." ns = false
              /\ (rest = EmptyString \/ exists r, rest = String "." r))
  /\ (forall pydeep s kw w o w',
         ELFSectionObject.__init__ pydeep s kw w = (Run.Ok o, w') ->
         ELFSectionObject.__section o = s /\ section_labels_bare o)
  /\ (forall lief_ELF_parse pydeep parsed filepath pseudofile kw w o w',
         ELFObject.__init__ lief_ELF_parse pydeep parsed filepath pseudofile kw w
         = (Run.Ok o, w') ->
         exists e l1 l2 l3,
           ELFObject.__elf o = Some e
           /\ (forall w, enum_label (Lief.file_type (Lief.header e)) w = (Run.Ok l1, w))
           /\ (forall w, enum_label (Lief.machine_type (Lief.header e)) w = (Run.Ok l2, w))
           /\ (forall w, enum_label (Lief.identity_os_abi (Lief.header e)) w
                         = (Run.Ok l3, w))
           /\ MISP.get_attributes_by_relation (ELFObject.base o) "type" = [MISP.VStr l1]
           /\ MISP.get_attributes_by_relation (ELFObject.base o) "arch" = [MISP.VStr l2]
           /\ MISP.get_attributes_by_relation (ELFObject.base o) "os_abi"
              = [MISP.VStr l3]
           /\ contains "." l1 = false /\ contains "." l2 = false
           /\ contains "." l3 = false
           /\ Forall section_labels_bare (ELFObject.sections o)).
Proof.
  split; [|split; [|split; [|split]]].
  - intro w. reflexivity.
  - intros ns l w Hns Hl. now rewrite enum_label_eq, label_of_qualified.
  - intros x l w w' H. rewrite enum_label_eq in H. injection H as H _.
    now apply label_of_shape.
  - intros pydeep s kw w o w' H.
    apply ELFSectionObject_init_ok in H as (attrs & Hattrs & -> & _).
    split; [reflexivity|]. now apply section_object_labels_bare with (pydeep := pydeep).
  - intros parse pydeep parsed filepath pseudofile kw w o w' H.
    apply init_ok in H
      as (e & l1 & l2 & l3 & He & H1 & H2 & H3 & Hbuilt & Hattr & _).
    exists e, l1, l2, l3. split; [exact He|].
    split; [intro w0; now rewrite enum_label_eq, H1|].
    split; [intro w0; now rewrite enum_label_eq, H2|].
    split; [intro w0; now rewrite enum_label_eq, H3|].
    unfold MISP.get_attributes_by_relation. rewrite Hattr.
    split; [reflexivity|]. split; [reflexivity|]. split; [reflexivity|].
    split; [now apply label_of_shape in H1|].
    split; [now apply label_of_shape in H2|].
    split; [now apply label_of_shape in H3|].
    eapply built_Forall; [|exact Hbuilt].
    intros u s attrs Hattrs. now apply section_object_labels_bare with (pydeep := pydeep).
Qed.

(** C7.  An ELF object that was built holds, for the sections of the
    binary that have a non-empty name, in the order of the parser, one
    section object each, built by [ELFSectionObject.__init__] before the
    constructor returns (the content of each section has been read by
    then, in order).  The section object at position [i], counting from
    zero over the retained sections only, has the reference at position
    [i], of kind [includes] and labelled [Section i of ELF]; the index
    appears nowhere else, and there are no other references. *)
Theorem section_enumeration
    (lief_ELF_parse : Run.parse_arg -> Run.result (option Lief.Binary))
    (pydeep : option Pydeep.module) (parsed filepath pseudofile : Py.object)
    (kw : MISP.kwargs) (w w' : Run.world) (o : ELFObject.t) :
  ELFObject.__init__ lief_ELF_parse pydeep parsed filepath pseudofile kw w
  = (Run.Ok o, w') ->
  exists e,
    ELFObject.__elf o = Some e
    /\ map ELFSectionObject.__section (ELFObject.sections o)
       = filter has_name (Lief.sections e)
    /\ List.length (MISP.ObjectReference (ELFObject.base o))
       = List.length (ELFObject.sections o)
    /\ (forall i so,
           nth_error (ELFObject.sections o) i = Some so ->
           nth_error (MISP.ObjectReference (ELFObject.base o)) i
           = Some {| MISP.referenced_uuid := MISP.uuid (ELFSectionObject.base so);
                     MISP.relationship_type := "includes";
                     MISP.comment :=
                       "Section " ++ Py.format_int (Z.of_nat i) ++ " of ELF" |}
           /\ forall t,
                fst (ELFSectionObject.__init__ pydeep (ELFSectionObject.__section so) kw
                       {| Run.next_uuid := S (Run.next_uuid w) + i; Run.trace := t |})
                = Run.Ok so)
    /\ exists pre,
         Run.trace w'
         = (pre ++ map Run.SectionContent (filter has_name (Lief.sections e)))%list.
Proof.
  intro H.
  apply init_ok in H
    as (e & l1 & l2 & l3 & He & _ & _ & _ & Hbuilt & _ & Href & _ & Htrace).
  exists e. split; [exact He|].
  split; [exact (built_sections _ _ _ _ _ Hbuilt)|].
  split; [rewrite Href; apply section_references_length|].
  split; [|exact Htrace].
  intros i so Hn. split.
  - rewrite Href. rewrite (section_references_nth 0 _ _ _ Hn). reflexivity.
  - exact (proj2 (built_nth _ _ _ _ _ _ _ Hbuilt Hn)).
Qed.

(** ** Input resolution *)

(** A truthy [pseudofile] of a supported type that the parser does not
    recognise is rejected (lines 59-60). *)
Lemma unparsable_pseudofile_rejected
    (lief_ELF_parse : Run.parse_arg -> Run.result (option Lief.Binary))
    (pydeep : option Pydeep.module) (parsed filepath pseudofile : Py.object)
    (kw : MISP.kwargs) (w : Run.world) (arg : Run.parse_arg) :
  Py.truthy pseudofile = true ->
  parse_arg_of pseudofile = Some arg ->
  lief_ELF_parse arg = Run.Ok None ->
  ELFObject.__init__ lief_ELF_parse pydeep parsed filepath pseudofile kw w
  = (Run.Raise (Py.InvalidMISPObject "Unable to parse pseudofile"),
     parsed_with arg (started pydeep w)).
Proof.
  intros Ht Harg Hnone. rewrite init_eq.
  unfold Run.bind. rewrite resolve_input_eq. unfold resolved.
  now rewrite Ht, Harg, Hnone.
Qed.

(** A truthy [filepath] that the parser does not recognise, under a falsy
    [pseudofile], is not rejected: [__elf] stays unset, and attribute
    generation raises (lines 62-64 have no [else]). *)
Lemma unparsable_filepath_not_rejected
    (lief_ELF_parse : Run.parse_arg -> Run.result (option Lief.Binary))
    (pydeep : option Pydeep.module) (parsed filepath pseudofile : Py.object)
    (kw : MISP.kwargs) (w : Run.world) :
  Py.truthy pseudofile = false ->
  Py.truthy filepath = true ->
  lief_ELF_parse (Run.ParsePath filepath) = Run.Ok None ->
  ELFObject.__init__ lief_ELF_parse pydeep parsed filepath pseudofile kw w
  = (Run.Raise (Py.AttributeError no___elf),
     parsed_with (Run.ParsePath filepath) (started pydeep w)).
Proof.
  intros Hp Hf Hnone. rewrite init_eq.
  unfold Run.bind. rewrite resolve_input_eq. unfold resolved.
  rewrite Hp, Hf, Hnone.
  now rewrite generate_attributes_unset.
Qed.

(** C5 (the path case).  With the file path ["/nonexistent"], for which
    the parser yields no result, the constructor raises the
    [AttributeError] of the unset [__elf], not [InvalidMISPObject]. *)
Theorem unparsable_path_attribute_error :
  ELFObject.__init__ Sample.parse_nothing None
    Py.PyNone (Py.PyStr "/nonexistent") Py.PyNone Sample.kw Sample.w0
  = (Run.Raise (Py.AttributeError no___elf),
     parsed_with (Run.ParsePath (Py.PyStr "/nonexistent")) (started None Sample.w0)).
Proof. now apply unparsable_filepath_not_rejected. Qed.

(** C9.  When none of [pseudofile], [filepath] and [parsed] is truthy,
    input resolution returns without raising and leaves [__elf] unset;
    attribute generation then raises [AttributeError] at its first read of
    [__elf], and so does the constructor, having called the parser on
    nothing. *)
Theorem no_input_attribute_error
    (lief_ELF_parse : Run.parse_arg -> Run.result (option Lief.Binary))
    (pydeep : option Pydeep.module) (parsed filepath pseudofile : Py.object)
    (kw : MISP.kwargs) (w : Run.world) :
  Py.truthy pseudofile = false ->
  Py.truthy filepath = false ->
  Py.truthy parsed = false ->
  ELFObject.resolve_input lief_ELF_parse (blank kw w) parsed filepath pseudofile
    (started pydeep w)
  = (Run.Ok (blank kw w), started pydeep w)
  /\ ELFObject.__elf (blank kw w) = None
  /\ ELFObject.generate_attributes pydeep (blank kw w) (started pydeep w)
     = (Run.Raise (Py.AttributeError no___elf), started pydeep w)
  /\ ELFObject.__init__ lief_ELF_parse pydeep parsed filepath pseudofile kw w
     = (Run.Raise (Py.AttributeError no___elf), started pydeep w).
Proof.
  intros Hp Hf Ha.
  pose proof (resolve_input_nothing lief_ELF_parse (blank kw w) _ _ _
                (started pydeep w) Hp Hf Ha) as Hres.
  split; [exact Hres|]. split; [reflexivity|].
  split; [now apply generate_attributes_unset|].
  rewrite init_eq. rewrite (bind_ok _ _ _ _ _ Hres).
  now apply generate_attributes_unset.
Qed.

(** C4, as the code has it.  A truthy [pseudofile] that is neither a
    [BytesIO], nor a [bytes], nor a [list] makes the constructor raise
    [InvalidMISPObject], whatever the other inputs; under a falsy
    [pseudofile] and a falsy [filepath], a truthy [parsed] that is not a
    [lief.ELF.Binary] does too.  In both cases nothing is returned, and
    nothing was parsed or built. *)
Theorem unsupported_truthy_input_rejected
    (lief_ELF_parse : Run.parse_arg -> Run.result (option Lief.Binary))
    (pydeep : option Pydeep.module) (parsed filepath pseudofile : Py.object)
    (kw : MISP.kwargs) (w : Run.world) :
  (Py.truthy pseudofile = true ->
   supported_pseudofile pseudofile = false ->
   ELFObject.__init__ lief_ELF_parse pydeep parsed filepath pseudofile kw w
   = (Run.Raise (Py.InvalidMISPObject
        ("Pseudo file can be BytesIO or bytes got " ++ Py.type_repr pseudofile)),
      started pydeep w))
  /\ (Py.truthy pseudofile = false ->
      Py.truthy filepath = false ->
      Py.truthy parsed = true ->
      is_Binary parsed = false ->
      ELFObject.__init__ lief_ELF_parse pydeep parsed filepath pseudofile kw w
      = (Run.Raise (Py.InvalidMISPObject
           ("Not a lief.ELF.Binary: " ++ Py.type_repr parsed)),
         started pydeep w)).
Proof.
  split.
  - intros Ht Hs. rewrite init_eq. unfold ELFObject.resolve_input. rewrite Ht.
    destruct pseudofile; try discriminate; reflexivity.
  - intros Hp Hf Ha Hb. rewrite init_eq. unfold ELFObject.resolve_input.
    rewrite Hp, Hf, Ha.
    destruct parsed; try discriminate; reflexivity.
Qed.

(** C4, as stated, fails: the integer [0] is a raw buffer of an
    unsupported type, and the constructor does not raise
    [InvalidMISPObject] for it but the [AttributeError] of the unset
    [__elf]; so it does for [0] as the pre-parsed descriptor. *)
Lemma unsupported_falsy_input_not_rejected :
  supported_pseudofile (Py.PyInt 0) = false
  /\ ELFObject.__init__ Sample.parse_nothing None
       Py.PyNone Py.PyNone (Py.PyInt 0) Sample.kw Sample.w0
     = (Run.Raise (Py.AttributeError no___elf), started None Sample.w0)
  /\ is_Binary (Py.PyInt 0) = false
  /\ ELFObject.__init__ Sample.parse_nothing None
       (Py.PyInt 0) Py.PyNone Py.PyNone Sample.kw Sample.w0
     = (Run.Raise (Py.AttributeError no___elf), started None Sample.w0).
Proof. repeat split. Qed.

(** ** The theorems at the sample inputs *)

Lemma section_digests_of_content_witness :
  exists o w',
    ELFSectionObject.__init__ None Sample.text Sample.kw Sample.w0 = (Run.Ok o, w')
    /\ (0 < Lief.size Sample.text)%Z
    /\ map MISP.object_relation (MISP.Attribute (ELFSectionObject.base o))
       = ["name"; "type"; "flag"; "flag"; "size-in-bytes"; "entropy";
          "md5"; "sha1"; "sha256"; "sha512"]
    /\ MISP.get_attributes_by_relation (ELFSectionObject.base o) "md5"
       = [MISP.VStr "a63c90cc3684ad8b0a2176a6a8fe9005"]
    /\ MISP.get_attributes_by_relation (ELFSectionObject.base o) "sha1"
       = [MISP.VStr "9694c4ebd673a5e2fd26e4b2e64f92e914ebd95f"]
    /\ MISP.get_attributes_by_relation (ELFSectionObject.base o) "sha256"
       = [MISP.VStr "01d448afd928065458cf670b60f5a594d735af0172c8d67f22a81680132681ca"]
    /\ Run.trace w' = [Run.SectionContent Sample.text].
Proof.
  destruct (ELFSectionObject.__init__ None Sample.text Sample.kw Sample.w0)
    as [[o|e] w'] eqn:H; [|vm_compute in H; discriminate].
  assert (Hsize : (0 < Lief.size Sample.text)%Z) by reflexivity.
  destruct (section_digests_of_content None Sample.text Sample.kw Sample.w0 w' o H Hsize)
    as (Hrel & Hmd5 & Hsha1 & Hsha256 & _ & _ & _ & _ & _ & _ & Htrace).
  exists o, w'. split; [reflexivity|]. split; [exact Hsize|].
  rewrite Hrel, Hmd5, Hsha1, Hsha256, Htrace.
  vm_compute. repeat split.
Defined.

Lemma empty_section_has_no_digests_witness :
  exists o w',
    ELFSectionObject.__init__ (Some Sample.fuzzy) Sample.comment Sample.kw Sample.w0
    = (Run.Ok o, w')
    /\ Lief.size Sample.comment = 0%Z
    /\ MISP.has_attribute (ELFSectionObject.base o) "md5" = false
    /\ MISP.has_attribute (ELFSectionObject.base o) "ssdeep" = false
    /\ map MISP.object_relation (MISP.Attribute (ELFSectionObject.base o))
       = ["name"; "type"; "flag"; "size-in-bytes"].
Proof.
  destruct (ELFSectionObject.__init__ (Some Sample.fuzzy) Sample.comment Sample.kw
              Sample.w0) as [[o|e] w'] eqn:H; [|vm_compute in H; discriminate].
  assert (Hsize : Lief.size Sample.comment = 0%Z) by reflexivity.
  destruct (empty_section_has_no_digests _ _ _ _ _ _ H Hsize)
    as (_ & Hmd5 & _ & _ & _ & Hssdeep & Hrel & _).
  exists o, w'. split; [reflexivity|]. split; [exact Hsize|].
  split; [exact Hmd5|]. split; [exact Hssdeep|]. exact Hrel.
Defined.

Lemma ssdeep_iff_pydeep_witness :
  (0 < Lief.size Sample.text)%Z
  /\ (exists o w',
         ELFSectionObject.__init__ (Some Sample.fuzzy) Sample.text Sample.kw Sample.w0
         = (Run.Ok o, w')
         /\ MISP.has_attribute (ELFSectionObject.base o) "ssdeep" = true
         /\ MISP.get_attributes_by_relation (ELFSectionObject.base o) "ssdeep"
            = [MISP.VStr "3::"])
  /\ (exists o w',
         ELFSectionObject.__init__ None Sample.text Sample.kw Sample.w0 = (Run.Ok o, w')
         /\ MISP.has_attribute (ELFSectionObject.base o) "ssdeep" = false
         /\ MISP.get_attributes_by_relation (ELFSectionObject.base o) "ssdeep" = []).
Proof.
  assert (Hsize : (0 < Lief.size Sample.text)%Z) by reflexivity.
  destruct (ssdeep_iff_pydeep Sample.text Sample.kw Sample.w0 Hsize) as [Hiff _].
  split; [exact Hsize|]. split.
  - destruct (ELFSectionObject.__init__ (Some Sample.fuzzy) Sample.text Sample.kw
                Sample.w0) as [[o|e] w'] eqn:H; [|vm_compute in H; discriminate].
    destruct (Hiff _ _ _ H) as [Hhas (d & Hd & Hget)].
    exists o, w'. split; [reflexivity|]. split; [exact Hhas|].
    rewrite Hget. vm_compute in Hd. injection Hd as <-. reflexivity.
  - destruct (ELFSectionObject.__init__ None Sample.text Sample.kw Sample.w0)
      as [[o|e] w'] eqn:H; [|vm_compute in H; discriminate].
    destruct (Hiff _ _ _ H) as [Hhas Hget].
    exists o, w'. split; [reflexivity|]. split; [exact Hhas | exact Hget].
Defined.

Lemma number_sections_counts_section_objects_witness :
  exists o w',
    ELFObject.__init__ Sample.parse_magic None
      Py.PyNone Py.PyNone (Py.PyBytes [x7f; x45; x4c; x46]) Sample.kw Sample.w0
    = (Run.Ok o, w')
    /\ MISP.get_attributes_by_relation (ELFObject.base o) "number-sections"
       = [MISP.VInt 2]
    /\ map ELFSectionObject.__section (ELFObject.sections o)
       = [Sample.text; Sample.comment]
    /\ map MISP.referenced_uuid (MISP.ObjectReference (ELFObject.base o))
       = map (fun so => MISP.uuid (ELFSectionObject.base so)) (ELFObject.sections o).
Proof.
  destruct (ELFObject.__init__ Sample.parse_magic None
              Py.PyNone Py.PyNone (Py.PyBytes [x7f; x45; x4c; x46]) Sample.kw Sample.w0)
    as [[o|e] w'] eqn:H; [|vm_compute in H; discriminate].
  destruct (number_sections_counts_section_objects _ _ _ _ _ _ _ _ _ H)
    as (e & He & Hnum & Hlen & Hsecs & _ & Hrefs).
  assert (He' : e = Sample.binary).
  { vm_compute in H. injection H as <- _. simpl in He. now injection He as <-. }
  subst e. exists o, w'. split; [reflexivity|].
  rewrite Hnum, Hlen, Hsecs. repeat split. exact Hrefs.
Defined.

Lemma section_enumeration_witness :
  exists o w',
    ELFObject.__init__ Sample.parse_magic (Some Sample.fuzzy)
      (Py.PyBinary Sample.binary) Py.PyNone Py.PyNone Sample.kw Sample.w0
    = (Run.Ok o, w')
    /\ map ELFSectionObject.__section (ELFObject.sections o)
       = [Sample.text; Sample.comment]
    /\ map MISP.comment (MISP.ObjectReference (ELFObject.base o))
       = ["Section 0 of ELF"; "Section 1 of ELF"]
    /\ Run.trace w' = [Run.SectionContent Sample.text; Run.SectionContent Sample.comment].
Proof.
  destruct (ELFObject.__init__ Sample.parse_magic (Some Sample.fuzzy)
              (Py.PyBinary Sample.binary) Py.PyNone Py.PyNone Sample.kw Sample.w0)
    as [[o|e] w'] eqn:H; [|vm_compute in H; discriminate].
  destruct (section_enumeration _ _ _ _ _ _ _ _ _ H)
    as (e & He & Hsecs & _ & _ & _).
  assert (He' : e = Sample.binary).
  { vm_compute in H. injection H as <- _. simpl in He. now injection He as <-. }
  subst e. exists o, w'. split; [reflexivity|]. split; [exact Hsecs|].
  vm_compute in H. injection H as <- <-. split; reflexivity.
Defined.

Lemma no_input_attribute_error_witness :
  ELFObject.__init__ Sample.parse_magic None
    Py.PyNone Py.PyNone (Py.PyInt 0) Sample.kw Sample.w0
  = (Run.Raise (Py.AttributeError no___elf), started None Sample.w0)
  /\ ELFObject.__init__ Sample.parse_magic None
       (Py.PyList []) (Py.PyStr EmptyString) (Py.PyBytes []) Sample.kw Sample.w0
     = (Run.Raise (Py.AttributeError no___elf), started None Sample.w0)
  /\ ELFObject.__init__ Sample.parse_magic None
       Py.PyNone Py.PyNone Py.PyNone Sample.kw Sample.w0
     = (Run.Raise (Py.AttributeError no___elf), started None Sample.w0).
Proof.
  split; [|split].
  - exact (proj2 (proj2 (proj2
      (no_input_attribute_error Sample.parse_magic None Py.PyNone Py.PyNone
         (Py.PyInt 0) Sample.kw Sample.w0 eq_refl eq_refl eq_refl)))).
  - exact (proj2 (proj2 (proj2
      (no_input_attribute_error Sample.parse_magic None (Py.PyList []) (Py.PyStr EmptyString)
         (Py.PyBytes []) Sample.kw Sample.w0 eq_refl eq_refl eq_refl)))).
  - exact (proj2 (proj2 (proj2
      (no_input_attribute_error Sample.parse_magic None Py.PyNone Py.PyNone
         Py.PyNone Sample.kw Sample.w0 eq_refl eq_refl eq_refl)))).
Defined.

Lemma unsupported_truthy_input_rejected_witness :
  ELFObject.__init__ Sample.parse_magic None
    (Py.PyBinary Sample.binary) Py.PyNone (Py.PyInt 3) Sample.kw Sample.w0
  = (Run.Raise (Py.InvalidMISPObject
       "Pseudo file can be BytesIO or bytes got <class 'int'>"),
     started None Sample.w0)
  /\ ELFObject.__init__ Sample.parse_magic None
       (Py.PyStr "a.out") Py.PyNone Py.PyNone Sample.kw Sample.w0
     = (Run.Raise (Py.InvalidMISPObject "Not a lief.ELF.Binary: <class 'str'>"),
        started None Sample.w0).
Proof.
  split.
  - exact (proj1 (unsupported_truthy_input_rejected Sample.parse_magic None
             (Py.PyBinary Sample.binary) Py.PyNone (Py.PyInt 3) Sample.kw Sample.w0)
             eq_refl eq_refl).
  - exact (proj2 (unsupported_truthy_input_rejected Sample.parse_magic None
             (Py.PyStr "a.out") Py.PyNone Py.PyNone Sample.kw Sample.w0)
             eq_refl eq_refl eq_refl eq_refl).
Defined.

(** * Further properties *)

(** ** What a call depends on, and what it adds to the trace *)

Lemma tidy_ret (P : Run.event -> Prop) {A : Type} (a : A) : tidy P (Run.ret a).
Proof. intro w. cbn. rewrite List.app_nil_r. now repeat split. Qed.

Lemma tidy_raise (P : Run.event -> Prop) {A : Type} (e : Py.exn) :
  tidy P (@Run.raise A e).
Proof. intro w. cbn. rewrite List.app_nil_r. now repeat split. Qed.

Lemma tidy_emit (P : Run.event -> Prop) (e : Run.event) : P e -> tidy P (Run.emit e).
Proof. intros He w. cbn. repeat split. now constructor. Qed.

Lemma tidy_fresh_uuid (P : Run.event -> Prop) : tidy P Run.fresh_uuid.
Proof. intro w. cbn. rewrite List.app_nil_r. now repeat split. Qed.

Lemma bare_eq (w1 w2 : Run.world) :
  Run.next_uuid w1 = Run.next_uuid w2 -> bare w1 = bare w2.
Proof. unfold bare. now intros ->. Qed.

Lemma tidy_bind (P : Run.event -> Prop) {A B : Type} (c : Run.M A) (k : A -> Run.M B) :
  tidy P c -> (forall a, tidy P (k a)) -> tidy P (Run.bind c k).
Proof.
  intros Hc Hk w. destruct (Hc w) as (Hr & Hn & Ht & HP).
  unfold Run.bind.
  destruct (c w) as [r w1]. destruct (c (bare w)) as [r' w1']. cbn in Hr, Hn, Ht, HP.
  subst r'. destruct r as [a|e]; cbn.
  - destruct (Hk a w1) as (Hr1 & Hn1 & Ht1 & _).
    destruct (Hk a w1') as (Hr2 & Hn2 & Ht2 & HP2).
    rewrite (bare_eq w1 w1' Hn) in Hr1, Hn1, Ht1.
    rewrite Hr1, Hr2, Hn1, Hn2, Ht1, Ht2, Ht, <- List.app_assoc.
    repeat split. apply Forall_app. now split.
  - now repeat split.
Qed.

Lemma tidy_for_ (P : Run.event -> Prop) {A S : Type} (l : list A)
    (body : S -> A -> Run.M S) :
  (forall s x, tidy P (body s x)) -> forall s, tidy P (Run.for_ l body s).
Proof.
  intro Hb. induction l as [|x r IH]; intro s; simpl.
  - apply tidy_ret.
  - apply tidy_bind; [apply Hb | exact IH].
Qed.

Lemma tidy_weaken (P Q : Run.event -> Prop) {A : Type} (c : Run.M A) :
  (forall e, P e -> Q e) -> tidy P c -> tidy Q c.
Proof.
  intros HPQ Hc w. destruct (Hc w) as (Hr & Hn & Ht & HP).
  repeat split; try assumption. eapply Forall_impl; eauto.
Qed.

Lemma tidy_enum_label (P : Run.event -> Prop) (x : Lief.enum) : tidy P (enum_label x).
Proof.
  unfold enum_label. destruct (Py.getitem _ 1); [apply tidy_ret | apply tidy_raise].
Qed.

Lemma tidy_ELFSectionObject_init pydeep s kw :
  tidy is_content (ELFSectionObject.__init__ pydeep s kw).
Proof.
  intro w. rewrite !ELFSectionObject_init_eq. cbn.
  repeat split. now repeat constructor.
Qed.

Lemma tidy_section_step pydeep st s : tidy is_content (ELFObject.section_step pydeep st s).
Proof.
  unfold ELFObject.section_step. destruct st as [self pos].
  destruct (negb (Py.nonempty (Lief.name s))); [apply tidy_ret|].
  apply tidy_bind; [apply tidy_ELFSectionObject_init | intro; apply tidy_ret].
Qed.

Lemma tidy_get___elf (P : Run.event -> Prop) self : tidy P (ELFObject.get___elf self).
Proof.
  unfold ELFObject.get___elf.
  destruct (ELFObject.__elf self); [apply tidy_ret | apply tidy_raise].
Qed.

(** Attribute generation adds nothing to the trace but the reading of
    section contents. *)
Lemma tidy_generate_attributes pydeep self :
  tidy is_content (ELFObject.generate_attributes pydeep self).
Proof.
  unfold ELFObject.generate_attributes. cbv zeta.
  repeat first
    [ apply tidy_ret
    | apply tidy_get___elf
    | apply tidy_enum_label
    | apply tidy_for_; intros; apply tidy_section_step
    | apply tidy_bind; [|intro]
    | match goal with
      | |- tidy _ (match ?x with _ => _ end) => destruct x
      end ].
Qed.

(** ** The trace of the constructor *)
Section ConstructorTrace.
Variable lief_ELF_parse : Run.parse_arg -> Run.result (option Lief.Binary).
Variable pydeep : option Pydeep.module.

(** Input resolution calls the parser as [resolved_calls] says, whatever
    its outcome. *)
Lemma resolve_input_world self parsed filepath pseudofile w :
  snd (ELFObject.resolve_input lief_ELF_parse self parsed filepath pseudofile w)
  = {| Run.next_uuid := Run.next_uuid w;
       Run.trace := Run.trace w ++ map Run.LiefParse (resolved_calls filepath pseudofile) |}.
Proof.
  rewrite resolve_input_eq. unfold resolved_calls, parsed_with.
  resolved_cases; cbn; rewrite ?List.app_nil_r; try reflexivity; now destruct w.
Qed.

(** What input resolution returns does not depend on the world. *)
Lemma resolve_input_result self parsed filepath pseudofile w1 w2 :
  fst (ELFObject.resolve_input lief_ELF_parse self parsed filepath pseudofile w1)
  = fst (ELFObject.resolve_input lief_ELF_parse self parsed filepath pseudofile w2).
Proof.
  rewrite !resolve_input_eq. unfold resolved.
  destruct (Py.truthy pseudofile);
    [destruct (parse_arg_of pseudofile); reflexivity|].
  destruct (Py.truthy filepath); [reflexivity|].
  destruct (Py.truthy parsed); reflexivity.
Qed.

Lemma init_trace
    (parsed filepath pseudofile : Py.object) (kw : MISP.kwargs) (w : Run.world) :
  exists contents,
    Run.trace
      (snd (ELFObject.__init__ lief_ELF_parse pydeep parsed filepath pseudofile kw w))
    = (Run.trace w
         ++ (if HAS_PYDEEP pydeep then [] else [Run.LoggerWarning pydeep_warning])
         ++ map Run.LiefParse (resolved_calls filepath pseudofile)
         ++ contents)%list
    /\ Forall is_content contents.
Proof.
  rewrite init_eq. unfold Run.bind.
  pose proof (resolve_input_world (blank kw w) parsed filepath pseudofile
                (started pydeep w)) as Hw.
  destruct (ELFObject.resolve_input lief_ELF_parse (blank kw w) parsed filepath
              pseudofile (started pydeep w)) as [[self|e] w1].
  - cbn [snd] in Hw. subst w1.
    match goal with
    | |- context [ELFObject.generate_attributes pydeep self ?w0] =>
        destruct (tidy_generate_attributes pydeep self w0) as (_ & _ & Ht & HP)
    end.
    eexists. split; [|exact HP].
    cbn [snd] in Ht |- *. rewrite Ht. cbn [Run.trace started]. unfold pydeep_warning.
    now rewrite <- !List.app_assoc.
  - cbn [snd] in Hw. subst w1. exists []. split; [|constructor].
    cbn [snd Run.trace started]. unfold pydeep_warning.
    now rewrite List.app_nil_r, <- !List.app_assoc.
Qed.


(** X1.  Whatever its inputs and its outcome, the constructor first logs
    the pydeep warning, exactly when pydeep is missing; then calls the
    parser at most once: on a truthy [pseudofile] of a supported type, else
    on a truthy [filepath], else not at all; and after that only reads the
    content of sections. *)
Theorem constructor_trace
    (parsed filepath pseudofile : Py.object) (kw : MISP.kwargs) (w : Run.world) :
  exists contents,
    Run.trace
      (snd (ELFObject.__init__ lief_ELF_parse pydeep parsed filepath pseudofile kw w))
    = (Run.trace w
         ++ (if HAS_PYDEEP pydeep then [] else [Run.LoggerWarning pydeep_warning])
         ++ map Run.LiefParse (resolved_calls filepath pseudofile)
         ++ contents)%list
    /\ Forall is_content contents.
Proof. apply init_trace. Qed.

End ConstructorTrace.

(** ** Attribute generation, as an equation *)
Section Generation.
Variable pydeep : option Pydeep.module.

(** The loop passes over the sections without a name. *)
Lemma sections_loop_filter secs st w :
  Run.for_ secs (ELFObject.section_step pydeep) st w
  = Run.for_ (filter has_name secs) (ELFObject.section_step pydeep) st w.
Proof.
  revert st w; induction secs as [|s r IH]; intros st w; [reflexivity|].
  simpl filter. unfold has_name at 1. destruct (Py.nonempty (Lief.name s)) eqn:E.
  - simpl Run.for_. unfold Run.bind.
    destruct (ELFObject.section_step pydeep st s w) as [[st'|e] w1];
      [apply IH | reflexivity].
  - simpl Run.for_. unfold Run.bind at 1, ELFObject.section_step at 1.
    destruct st as [self pos]. rewrite E. cbn. apply IH.
Qed.

Lemma ELFObject_generate_attributes_eq self e w :
  ELFObject.__elf self = Some e ->
  ELFObject.generate_attributes pydeep self w
  = match label_of (Lief.file_type (Lief.header e)) with
    | Run.Raise x => (Run.Raise x, w)
    | Run.Ok l1 =>
        match label_of (Lief.machine_type (Lief.header e)) with
        | Run.Raise x => (Run.Raise x, w)
        | Run.Ok l2 =>
            match label_of (Lief.identity_os_abi (Lief.header e)) with
            | Run.Raise x => (Run.Raise x, w)
            | Run.Ok l3 =>
                match Run.for_ (named_sections e) (ELFObject.section_step pydeep)
                        (labelled self e l1 l2 l3, 0%Z) w with
                | (Run.Ok st, w') => (Run.Ok (counted (fst st)), w')
                | (Run.Raise x, w') => (Run.Raise x, w')
                end
            end
        end
    end.
Proof.
  destruct self as [b oe secs0]. cbn [ELFObject.__elf]. intros ->.
  unfold ELFObject.generate_attributes, labelled, counted. cbv zeta.
  cbn [ELFObject.get___elf ELFObject.__elf ELFObject.add_attribute
       ELFObject.set_sections ELFObject.sections ELFObject.base].
  unfold Run.bind at 1, Run.ret at 1. unfold Run.bind at 1. rewrite enum_label_eq.
  destruct (label_of (Lief.file_type (Lief.header e))) as [l1|x]; [|reflexivity].
  unfold Run.bind at 1, Run.ret at 1.
  unfold Run.bind at 1, Run.ret at 1. unfold Run.bind at 1. rewrite enum_label_eq.
  destruct (label_of (Lief.machine_type (Lief.header e))) as [l2|x]; [|reflexivity].
  unfold Run.bind at 1, Run.ret at 1. unfold Run.bind at 1. rewrite enum_label_eq.
  destruct (label_of (Lief.identity_os_abi (Lief.header e))) as [l3|x]; [|reflexivity].
  unfold Run.bind at 1, Run.ret at 1. unfold Run.bind at 1.
  unfold named_sections.
  destruct (Lief.sections e) as [|s r] eqn:Hsecs.
  - reflexivity.
  - unfold Run.bind at 1, Run.ret at 1. unfold Run.bind at 1.
    rewrite <- Hsecs, sections_loop_filter.
    destruct (Run.for_ _ _ _ w) as [[st|x] w1]; reflexivity.
Qed.

(** Given the section objects, the loop returns. *)
Lemma sections_loop_built (secs : list Lief.Section) :
  forall self pos w objs,
    Forall (fun s => has_name s = true) secs ->
    built pydeep (kwargs_of self) (Run.next_uuid w) secs objs ->
    Run.for_ secs (ELFObject.section_step pydeep) (self, pos) w
    = (Run.Ok (with_sections self pos objs, (pos + Z.of_nat (List.length objs))%Z),
       after_sections secs w).
Proof.
  induction secs as [|s r IH]; intros self pos w [|o os] Hnamed H; simpl in H;
    try contradiction.
  - simpl. unfold Run.ret. rewrite with_sections_nil, Z.add_0_r.
    unfold after_sections; simpl. rewrite Nat.add_0_r, List.app_nil_r. now destruct w.
  - destruct H as [(attrs & Hattrs & ->) H].
    inversion Hnamed as [|? ? Hn Hnamed']; subst. unfold has_name in Hn.
    set (o := section_object (Run.next_uuid w) (kwargs_of self) s attrs).
    set (self' := ELFObject.set_sections
                    (ELFObject.add_reference self (Run.next_uuid w) "includes"
                       ("Section " ++ Py.format_int pos ++ " of ELF"))
                    (ELFObject.sections self ++ [o])).
    assert (Hstep : ELFObject.section_step pydeep (self, pos) s w
                    = (Run.Ok (self', (pos + 1)%Z), after_section s w)).
    { unfold ELFObject.section_step. rewrite Hn. cbn [negb]. unfold Run.bind.
      change {| MISP.standalone := MISP._standalone (ELFObject.base self);
                MISP.default_attributes_parameters :=
                  MISP._default_attributes_parameters (ELFObject.base self) |}
        with (kwargs_of self).
      rewrite ELFSectionObject_init_eq, Hattrs. reflexivity. }
    simpl Run.for_. rewrite (bind_ok _ _ _ _ _ Hstep).
    rewrite (IH self' (pos + 1)%Z (after_section s w) os Hnamed' H). f_equal.
    + f_equal. f_equal.
      * unfold with_sections, self', section_reference, o; simpl.
        rewrite <- !List.app_assoc. reflexivity.
      * simpl List.length. lia.
    + unfold after_sections, after_section; simpl.
      f_equal; [lia | now rewrite <- List.app_assoc].
Qed.

End Generation.

(** ** When the constructors return *)

Lemma split_contains (sep : ascii) (s : string) :
  contains sep s = true -> exists a b rest, Py.split sep s = a :: b :: rest.
Proof.
  induction s as [|c r IH]; simpl; [discriminate|].
  destruct (Ascii.eqb c sep) eqn:E; simpl.
  - intros _. pose proof (split_not_nil sep r) as Hn.
    destruct (Py.split sep r) as [|b rest]; [contradiction|]. now eexists _, _, _.
  - intro H. destruct (IH H) as (a & b & rest & ->). now eexists _, _, _.
Qed.

Lemma label_of_ok_iff (x : Lief.enum) :
  (exists l, label_of x = Run.Ok l) <-> contains "." (Lief.str x) = true.
Proof.
  unfold label_of, Py.getitem. split.
  - intros (l & H). destruct (contains "." (Lief.str x)) eqn:E; [reflexivity|].
    rewrite (split_no_sep_one "." _ E) in H. discriminate.
  - intro H. destruct (split_contains "." _ H) as (a & b & rest & ->).
    now exists b.
Qed.

Lemma label_of_raise (x : Lief.enum) (e : Py.exn) :
  label_of x = Run.Raise e -> e = Py.IndexError "list index out of range".
Proof.
  unfold label_of. destruct (Py.getitem _ 1); [discriminate|].
  intro H; now injection H as <-.
Qed.

Lemma has_label_iff (x : Lief.enum) :
  has_label x <-> contains "." (Lief.str x) = true.
Proof.
  rewrite <- label_of_ok_iff. unfold has_label. split.
  - intros (l & H). exists l. specialize (H Sample.w0).
    rewrite enum_label_eq in H. now injection H.
  - intros (l & H). exists l. intro w. now rewrite enum_label_eq, H.
Qed.

Lemma labels_of_ok_iff (flags : list Lief.enum) :
  (exists ls, labels_of flags = Run.Ok ls)
  <-> forallb (fun f => contains "." (Lief.str f)) flags = true.
Proof.
  induction flags as [|x r IH]; simpl.
  - split; [reflexivity | now exists []].
  - rewrite Bool.andb_true_iff, <- IH, <- label_of_ok_iff. split.
    + intros (ls & H). destruct (label_of x) as [a|]; [|discriminate].
      destruct (labels_of r) as [ls'|]; [|discriminate]. split; eauto.
    + intros [(a & ->) (ls' & ->)]. eauto.
Qed.

Lemma labels_of_raise (flags : list Lief.enum) (e : Py.exn) :
  labels_of flags = Run.Raise e -> e = Py.IndexError "list index out of range".
Proof.
  induction flags as [|x r IH]; simpl; [discriminate|].
  destruct (label_of x) as [a|e'] eqn:Hx.
  - destruct (labels_of r) as [ls|e'']; [discriminate|].
    intro H; injection H as <-. now apply IH.
  - intro H; injection H as <-. now apply label_of_raise in Hx.
Qed.

(** The exceptions a section object can be refused with. *)
Lemma section_attributes_raise pydeep s e :
  section_attributes pydeep s = Run.Raise e ->
  e = Py.IndexError "list index out of range"
  \/ (HAS_PYDEEP pydeep = true
      /\ e = Py.UnicodeDecodeError "'utf-8' codec can't decode").
Proof.
  unfold section_attributes.
  destruct (label_of (Lief.type s)) as [ty|e'] eqn:Hty.
  2:{ intro H; injection H as <-. left. now apply label_of_raise in Hty. }
  destruct (labels_of (Lief.flags_list s)) as [ls|e'] eqn:Hls.
  2:{ intro H; injection H as <-. left. now apply labels_of_raise in Hls. }
  destruct (0 <? Lief.size s)%Z; [|discriminate].
  unfold ssdeep_attributes. destruct pydeep as [m|]; [|discriminate].
  destruct (Py.decode _); [discriminate|].
  intro H; injection H as <-. right. now split.
Qed.

Lemma section_attributes_ok_iff pydeep s :
  (exists attrs, section_attributes pydeep s = Run.Ok attrs)
  <-> contains "." (Lief.str (Lief.type s)) = true
      /\ forallb (fun f => contains "." (Lief.str f)) (Lief.flags_list s) = true
      /\ ((0 < Lief.size s)%Z ->
          forall m, pydeep = Some m ->
                    Py.decode (Pydeep.hash_buf m (Lief.content s)) <> None).
Proof.
  rewrite <- label_of_ok_iff, <- labels_of_ok_iff. unfold section_attributes. split.
  - intros (attrs & H).
    destruct (label_of (Lief.type s)) as [ty|]; [|discriminate].
    destruct (labels_of (Lief.flags_list s)) as [ls|]; [|discriminate].
    split; [eauto|]. split; [eauto|].
    intros Hsize m ->. apply Z.ltb_lt in Hsize. rewrite Hsize in H.
    cbn [ssdeep_attributes] in H. destruct (Py.decode _); [discriminate|discriminate].
  - intros ((ty & ->) & (ls & ->) & Hdec).
    destruct (0 <? Lief.size s)%Z eqn:E; [|eauto].
    apply Z.ltb_lt in E. unfold ssdeep_attributes.
    destruct pydeep as [m|]; [|eauto].
    specialize (Hdec E m eq_refl).
    destruct (Py.decode _); [eauto | contradiction].
Qed.

Lemma section_buildable_attributes pydeep s :
  section_buildable pydeep s <-> exists attrs, section_attributes pydeep s = Run.Ok attrs.
Proof.
  unfold section_buildable. split.
  - intro H. destruct (H Sample.kw Sample.w0) as (so & w' & Hinit).
    apply ELFSectionObject_init_ok in Hinit as (attrs & Hattrs & _). eauto.
  - intros (attrs & Hattrs) kw w. rewrite ELFSectionObject_init_eq, Hattrs. eauto.
Qed.

(** X2.  A section object can be built for a section exactly when the
    rendering of its type and of each of its flags holds a separator and,
    if its size is greater than zero and pydeep was imported, the fuzzy
    hash of its content decodes. *)
Theorem section_buildable_iff (pydeep : option Pydeep.module) (s : Lief.Section) :
  section_buildable pydeep s
  <-> contains "." (Lief.str (Lief.type s)) = true
      /\ forallb (fun f => contains "." (Lief.str f)) (Lief.flags_list s) = true
      /\ ((0 < Lief.size s)%Z ->
          forall m, pydeep = Some m ->
                    Py.decode (Pydeep.hash_buf m (Lief.content s)) <> None).
Proof.
  rewrite <- section_attributes_ok_iff. apply section_buildable_attributes.
Qed.

Lemma built_attributes pydeep kw u secs objs :
  built pydeep kw u secs objs ->
  Forall (fun s => exists attrs, section_attributes pydeep s = Run.Ok attrs) secs.
Proof.
  revert u objs; induction secs as [|s r IH]; intros u [|o os] H; simpl in H;
    try contradiction; constructor.
  - destruct H as [(attrs & Hattrs & _) _]. eauto.
  - destruct H as [_ H]. eauto.
Qed.

Lemma built_exists pydeep kw secs :
  Forall (fun s => exists attrs, section_attributes pydeep s = Run.Ok attrs) secs ->
  forall u, exists objs, built pydeep kw u secs objs.
Proof.
  induction 1 as [|s r (attrs & Hattrs) _ IH]; intro u.
  - now exists [].
  - destruct (IH (S u)) as (objs & Hobjs).
    exists (section_object u kw s attrs :: objs). simpl. split; eauto.
Qed.

Lemma named_sections_named (e : Lief.Binary) :
  Forall (fun s => has_name s = true) (named_sections e).
Proof.
  apply Forall_forall. intros s Hin. unfold named_sections in Hin.
  now apply filter_In in Hin.
Qed.

(** The constructor on a pre-parsed binary alone. *)
Lemma init_parsed_eq lief_ELF_parse pydeep e kw w :
  ELFObject.__init__ lief_ELF_parse pydeep (Py.PyBinary e) Py.PyNone Py.PyNone kw w
  = ELFObject.generate_attributes pydeep (ELFObject.set___elf (blank kw w) e)
      (started pydeep w).
Proof. rewrite init_eq. reflexivity. Qed.

(** X3.  From a pre-parsed binary alone, an ELF object can be built
    exactly when the renderings of the file type, the machine type and the
    OS ABI hold a separator and a section object can be built for each
    section with a non-empty name; sections without a name put no
    condition. *)
Theorem binary_buildable_iff
    (lief_ELF_parse : Run.parse_arg -> Run.result (option Lief.Binary))
    (pydeep : option Pydeep.module) (e : Lief.Binary) (kw : MISP.kwargs)
    (w : Run.world) :
  (exists o w',
      ELFObject.__init__ lief_ELF_parse pydeep (Py.PyBinary e) Py.PyNone Py.PyNone kw w
      = (Run.Ok o, w'))
  <-> has_label (Lief.file_type (Lief.header e))
      /\ has_label (Lief.machine_type (Lief.header e))
      /\ has_label (Lief.identity_os_abi (Lief.header e))
      /\ Forall (section_buildable pydeep) (filter has_name (Lief.sections e)).
Proof.
  rewrite !has_label_iff, <- !label_of_ok_iff. fold (named_sections e).
  split.
  - intros (o & w' & H). rewrite init_parsed_eq in H.
    apply generate_attributes_ok in H
      as (e' & l1 & l2 & l3 & objs & He & H1 & H2 & H3 & Hbuilt & _).
    cbn in He. injection He as <-.
    split; [eauto|]. split; [eauto|]. split; [eauto|].
    eapply Forall_impl; [|exact (built_attributes _ _ _ _ _ Hbuilt)].
    intros s Hs. now apply section_buildable_attributes.
  - intros ((l1 & H1) & (l2 & H2) & (l3 & H3) & Hsecs).
    rewrite init_parsed_eq.
    rewrite (ELFObject_generate_attributes_eq pydeep _ e) by reflexivity.
    rewrite H1, H2, H3.
    assert (Hattrs : Forall (fun s => exists attrs, section_attributes pydeep s
                                                    = Run.Ok attrs) (named_sections e)).
    { eapply Forall_impl; [|exact Hsecs].
      intros s Hs. now apply section_buildable_attributes. }
    destruct (built_exists pydeep
                (kwargs_of (labelled (ELFObject.set___elf (blank kw w) e) e l1 l2 l3))
                _ Hattrs (Run.next_uuid (started pydeep w))) as (objs & Hobjs).
    rewrite (sections_loop_built pydeep _ _ _ _ _ (named_sections_named e) Hobjs).
    eauto.
Qed.

(** ** The exceptions of the constructor *)

Lemma sections_loop_raise pydeep secs :
  forall st w x w',
    Run.for_ secs (ELFObject.section_step pydeep) st w = (Run.Raise x, w') ->
    exists s, In s secs /\ section_attributes pydeep s = Run.Raise x.
Proof.
  induction secs as [|s r IH]; intros st w x w' H; simpl in H; [discriminate|].
  unfold Run.bind in H.
  destruct (ELFObject.section_step pydeep st s w) as [[st1|e] w1] eqn:Hstep.
  - destruct (IH _ _ _ _ H) as (s' & Hin & Hs'). exists s'. split; [now right | exact Hs'].
  - injection H as <- <-. exists s. split; [now left|].
    unfold ELFObject.section_step in Hstep. destruct st as [self pos].
    destruct (negb (Py.nonempty (Lief.name s))); [discriminate|].
    unfold Run.bind in Hstep. rewrite ELFSectionObject_init_eq in Hstep.
    destruct (section_attributes pydeep s); [discriminate|].
    now injection Hstep as <- _.
Qed.

(** What input resolution raises is the exception of the parser, or one
    of the three of lines 58, 60 and 70. *)
Lemma resolve_input_raise lief_ELF_parse self parsed filepath pseudofile w x w' :
  ELFObject.resolve_input lief_ELF_parse self parsed filepath pseudofile w
  = (Run.Raise x, w') ->
  (exists arg,
      resolved_calls filepath pseudofile = [arg]
      /\ lief_ELF_parse arg = Run.Raise x
      /\ w' = parsed_with arg w)
  \/ x = Py.InvalidMISPObject "Unable to parse pseudofile"
  \/ x = Py.InvalidMISPObject
           ("Pseudo file can be BytesIO or bytes got " ++ Py.type_repr pseudofile)
  \/ x = Py.InvalidMISPObject ("Not a lief.ELF.Binary: " ++ Py.type_repr parsed).
Proof.
  rewrite resolve_input_eq. unfold resolved, resolved_calls.
  destruct (Py.truthy pseudofile).
  - destruct (parse_arg_of pseudofile) as [arg|].
    + destruct (lief_ELF_parse arg) as [[e|]|y] eqn:Hp; intro H; inversion H; subst.
      * right; left; reflexivity.
      * left. exists arg. now repeat split.
    + intro H; inversion H. right; right; left; reflexivity.
  - destruct (Py.truthy filepath).
    + destruct (lief_ELF_parse (Run.ParsePath filepath)) as [[e|]|y] eqn:Hp;
        intro H; inversion H; subst.
      left. exists (Run.ParsePath filepath). now repeat split.
    + destruct (Py.truthy parsed); [|discriminate].
      destruct parsed; intro H; inversion H; right; right; right; reflexivity.
Qed.

Lemma generate_attributes_raise pydeep self w x w' :
  ELFObject.generate_attributes pydeep self w = (Run.Raise x, w') ->
  x = Py.AttributeError no___elf
  \/ x = Py.IndexError "list index out of range"
  \/ (HAS_PYDEEP pydeep = true
      /\ x = Py.UnicodeDecodeError "'utf-8' codec can't decode").
Proof.
  destruct (ELFObject.__elf self) as [e|] eqn:He.
  - rewrite (ELFObject_generate_attributes_eq pydeep self e w He).
    destruct (label_of (Lief.file_type (Lief.header e))) as [l1|x1] eqn:H1.
    2:{ intro H; injection H as <- _. right; left. now apply label_of_raise in H1. }
    destruct (label_of (Lief.machine_type (Lief.header e))) as [l2|x2] eqn:H2.
    2:{ intro H; injection H as <- _. right; left. now apply label_of_raise in H2. }
    destruct (label_of (Lief.identity_os_abi (Lief.header e))) as [l3|x3] eqn:H3.
    2:{ intro H; injection H as <- _. right; left. now apply label_of_raise in H3. }
    destruct (Run.for_ _ _ _ w) as [[st|x4] w1] eqn:Hloop; [discriminate|].
    intro H; injection H as <- _.
    apply sections_loop_raise in Hloop as (s & _ & Hs).
    right. now apply section_attributes_raise in Hs.
  - rewrite generate_attributes_unset by exact He.
    intro H; injection H as <- _. now left.
Qed.

(** X4.  What the constructor raises is the exception of the parser, or
    one of its own.  An exception of the parser comes out as it is, of
    the one call the constructor makes, and nothing is done after it.  The
    others are: [InvalidMISPObject] with one of the three messages of lines
    58, 60 and 70; [AttributeError] for the unset [__elf]; [IndexError]
    for a rendering without a separator; and, only when pydeep was
    imported, [UnicodeDecodeError] for a fuzzy hash that does not decode.
    [NameError] is not among them: pydeep is not used unless it was
    imported.  This is for descriptors as [Lief] types them, a
    [pydeep.hash_buf] that returns, and [add_attribute] and
    [add_reference] as [MISP] has them, which do not raise. *)
Theorem constructor_exceptions
    (lief_ELF_parse : Run.parse_arg -> Run.result (option Lief.Binary))
    (pydeep : option Pydeep.module) (parsed filepath pseudofile : Py.object)
    (kw : MISP.kwargs) (w w' : Run.world) (x : Py.exn) :
  ELFObject.__init__ lief_ELF_parse pydeep parsed filepath pseudofile kw w
  = (Run.Raise x, w') ->
  (exists arg,
      resolved_calls filepath pseudofile = [arg]
      /\ lief_ELF_parse arg = Run.Raise x
      /\ w' = parsed_with arg (started pydeep w))
  \/ match x with
     | Py.InvalidMISPObject m =>
         m = "Unable to parse pseudofile"
         \/ m = "Pseudo file can be BytesIO or bytes got " ++ Py.type_repr pseudofile
         \/ m = "Not a lief.ELF.Binary: " ++ Py.type_repr parsed
     | Py.AttributeError m => m = no___elf
     | Py.IndexError m => m = "list index out of range"
     | Py.UnicodeDecodeError _ => HAS_PYDEEP pydeep = true
     | Py.NameError _ => False
     | Py.Exception _ _ => False
     end.
Proof.
  rewrite init_eq. unfold Run.bind.
  destruct (ELFObject.resolve_input lief_ELF_parse (blank kw w) parsed filepath
              pseudofile (started pydeep w)) as [[self|e] w1] eqn:Hres.
  - intro H. right. apply generate_attributes_raise in H
      as [-> | [-> | [Hp ->]]]; [reflexivity | reflexivity | exact Hp].
  - intro H; injection H as <- <-.
    apply resolve_input_raise in Hres as [Hparser | [-> | [-> | ->]]]; auto.
Qed.

(** ** Sections without a name *)

Lemma section_step_unnamed pydeep self pos s w :
  has_name s = false ->
  ELFObject.section_step pydeep (self, pos) s w = (Run.Ok (self, pos), w).
Proof. unfold has_name, ELFObject.section_step. now intros ->. Qed.

Lemma section_step_named pydeep self pos s w :
  has_name s = true ->
  ELFObject.section_step pydeep (self, pos) s w
  = (match section_attributes pydeep s with
     | Run.Ok attrs =>
         let o := section_object (Run.next_uuid w) (kwargs_of self) s attrs in
         Run.Ok (ELFObject.set_sections
                   (ELFObject.add_reference self (Run.next_uuid w) "includes"
                      ("Section " ++ Py.format_int pos ++ " of ELF"))
                   (ELFObject.sections self ++ [o]),
                 (pos + 1)%Z)
     | Run.Raise x => Run.Raise x
     end, after_section s w).
Proof.
  unfold has_name, ELFObject.section_step. intros ->. cbn [negb]. unfold Run.bind.
  change {| MISP.standalone := MISP._standalone (ELFObject.base self);
            MISP.default_attributes_parameters :=
              MISP._default_attributes_parameters (ELFObject.base self) |}
    with (kwargs_of self).
  rewrite ELFSectionObject_init_eq.
  destruct (section_attributes pydeep s); reflexivity.
Qed.

(** The loop does not look at [__elf]: from two objects that agree on the
    rest it ends in the same world, with the same exception or with two
    objects that agree on the rest. *)
Lemma sections_loop_same pydeep secs :
  forall self1 self2 pos w,
    ELFObject.base self1 = ELFObject.base self2 ->
    ELFObject.sections self1 = ELFObject.sections self2 ->
    match Run.for_ secs (ELFObject.section_step pydeep) (self1, pos) w,
          Run.for_ secs (ELFObject.section_step pydeep) (self2, pos) w with
    | (Run.Ok (o1, p1), w1), (Run.Ok (o2, p2), w2) =>
        ELFObject.base o1 = ELFObject.base o2
        /\ ELFObject.sections o1 = ELFObject.sections o2 /\ w1 = w2
    | (Run.Raise x1, w1), (Run.Raise x2, w2) => x1 = x2 /\ w1 = w2
    | _, _ => False
    end.
Proof.
  induction secs as [|s r IH]; intros self1 self2 pos w Hb Hs.
  - simpl. now repeat split.
  - cbn [Run.for_]. unfold Run.bind.
    destruct (has_name s) eqn:E.
    + rewrite !section_step_named by exact E. unfold kwargs_of. rewrite Hb, Hs.
      destruct (section_attributes pydeep s) as [attrs|x]; [|now split].
      cbv zeta. apply IH; cbn; now rewrite ?Hb.
    + rewrite !section_step_unnamed by exact E. now apply IH.
Qed.

(** X5.  Sections without a name are not looked at: two pre-parsed
    binaries with the same header, the same entry point and the same
    sections with a name, in the same order, give the same outcome (the
    same exception, or objects with the same attributes, references and
    section objects) and leave the same trace, wherever their sections
    without a name stand and whatever these hold. *)
Theorem unnamed_sections_ignored
    (lief_ELF_parse : Run.parse_arg -> Run.result (option Lief.Binary))
    (pydeep : option Pydeep.module) (e1 e2 : Lief.Binary) (kw : MISP.kwargs)
    (w : Run.world) :
  Lief.header e1 = Lief.header e2 ->
  Lief.entrypoint e1 = Lief.entrypoint e2 ->
  filter has_name (Lief.sections e1) = filter has_name (Lief.sections e2) ->
  same_but___elf
    (ELFObject.__init__ lief_ELF_parse pydeep (Py.PyBinary e1) Py.PyNone Py.PyNone kw w)
    (ELFObject.__init__ lief_ELF_parse pydeep (Py.PyBinary e2) Py.PyNone Py.PyNone kw w).
Proof.
  intros Hh He Hs. rewrite !init_parsed_eq.
  rewrite (ELFObject_generate_attributes_eq pydeep _ e1) by reflexivity.
  rewrite (ELFObject_generate_attributes_eq pydeep _ e2) by reflexivity.
  unfold named_sections. rewrite Hh, Hs.
  unfold same_but___elf.
  destruct (label_of (Lief.file_type (Lief.header e2))) as [l1|x]; [|now split].
  destruct (label_of (Lief.machine_type (Lief.header e2))) as [l2|x]; [|now split].
  destruct (label_of (Lief.identity_os_abi (Lief.header e2))) as [l3|x]; [|now split].
  assert (Hsame := sections_loop_same pydeep (filter has_name (Lief.sections e2))
                     (labelled (ELFObject.set___elf (blank kw w) e1) e1 l1 l2 l3)
                     (labelled (ELFObject.set___elf (blank kw w) e2) e2 l1 l2 l3)
                     0%Z (started pydeep w)).
  assert (Hb : ELFObject.base (labelled (ELFObject.set___elf (blank kw w) e1) e1 l1 l2 l3)
               = ELFObject.base
                   (labelled (ELFObject.set___elf (blank kw w) e2) e2 l1 l2 l3)).
  { unfold labelled; cbn. now rewrite He. }
  specialize (Hsame Hb eq_refl).
  destruct (Run.for_ _ _ (_, 0%Z) _) as [[[o1 p1]|x1] w1];
    destruct (Run.for_ _ _ (_, 0%Z) _) as [[[o2 p2]|x2] w2];
    try contradiction.
  - destruct Hsame as (Hbo & Hsec & ->). cbn. split; [reflexivity|].
    unfold counted; cbn. now rewrite Hbo, Hsec.
  - destruct Hsame as (-> & ->). now split.
Qed.

(** ** Parsed inputs *)

Lemma resolve_input_parsed lief_ELF_parse self parsed filepath pseudofile w arg e :
  resolved_calls filepath pseudofile = [arg] ->
  lief_ELF_parse arg = Run.Ok (Some e) ->
  ELFObject.resolve_input lief_ELF_parse self parsed filepath pseudofile w
  = (Run.Ok (ELFObject.set___elf self e), parsed_with arg w).
Proof.
  rewrite resolve_input_eq. unfold resolved_calls, resolved.
  destruct (Py.truthy pseudofile).
  - destruct (parse_arg_of pseudofile) as [a|]; [|discriminate].
    intros Harg Hp; injection Harg as ->; now rewrite Hp.
  - destruct (Py.truthy filepath); [|discriminate].
    intros Harg Hp; injection Harg as <-; now rewrite Hp.
Qed.

(** X6.  When the constructor calls the parser (on a truthy buffer of a
    supported type, else on a truthy path) and the parser returns a
    binary, it returns or raises what it does for that binary given
    pre-parsed, and draws the same identifiers. *)
Theorem parsed_input_as_preparsed
    (lief_ELF_parse : Run.parse_arg -> Run.result (option Lief.Binary))
    (pydeep : option Pydeep.module) (parsed filepath pseudofile : Py.object)
    (kw : MISP.kwargs) (w : Run.world) (arg : Run.parse_arg) (e : Lief.Binary) :
  resolved_calls filepath pseudofile = [arg] ->
  lief_ELF_parse arg = Run.Ok (Some e) ->
  let r1 := ELFObject.__init__ lief_ELF_parse pydeep parsed filepath pseudofile kw w in
  let r2 := ELFObject.__init__ lief_ELF_parse pydeep
              (Py.PyBinary e) Py.PyNone Py.PyNone kw w in
  fst r1 = fst r2 /\ Run.next_uuid (snd r1) = Run.next_uuid (snd r2).
Proof.
  intros Harg Hp r1 r2. subst r1 r2.
  rewrite init_parsed_eq, init_eq.
  rewrite (bind_ok _ _ _ _ _
             (resolve_input_parsed lief_ELF_parse (blank kw w) parsed filepath
                pseudofile (started pydeep w) arg e Harg Hp)).
  destruct (tidy_generate_attributes pydeep (ELFObject.set___elf (blank kw w) e)
              (parsed_with arg (started pydeep w))) as (Hr1 & Hn1 & _).
  destruct (tidy_generate_attributes pydeep (ELFObject.set___elf (blank kw w) e)
              (started pydeep w)) as (Hr2 & Hn2 & _).
  rewrite Hr1, Hr2, Hn1, Hn2. now split.
Qed.

Lemma byte_val_range (b : byte) : (0 <= Hashlib.byte_val b < 256)%Z.
Proof.
  unfold Hashlib.byte_val. pose proof (Byte.to_N_bounded b). lia.
Qed.

(** X7.  A [bytes] buffer and the list of its integers are the same input.
    When not empty, either is handed to the parser, once, as the list of
    its integers, each of one byte, and the constructor goes on from what
    the parser answers: from a binary, with attribute generation; from no
    result, with [InvalidMISPObject]; from an exception, with that
    exception.  When empty, either is passed over as [None] is.  So the
    constructor does the same on both. *)
Theorem bytes_as_list
    (lief_ELF_parse : Run.parse_arg -> Run.result (option Lief.Binary))
    (pydeep : option Pydeep.module) (parsed filepath : Py.object) (b : list byte)
    (kw : MISP.kwargs) (w : Run.world) :
  let raw := map Hashlib.byte_val b in
  let init := ELFObject.__init__ lief_ELF_parse pydeep parsed filepath in
  let w1 := parsed_with (Run.ParseRaw raw) (started pydeep w) in
  init (Py.PyBytes b) kw w = init (Py.PyList raw) kw w
  /\ Forall (fun n => 0 <= n < 256)%Z raw
  /\ (b <> [] ->
      init (Py.PyBytes b) kw w
      = match lief_ELF_parse (Run.ParseRaw raw) with
        | Run.Ok (Some e) =>
            ELFObject.generate_attributes pydeep (ELFObject.set___elf (blank kw w) e) w1
        | Run.Ok None =>
            (Run.Raise (Py.InvalidMISPObject "Unable to parse pseudofile"), w1)
        | Run.Raise x => (Run.Raise x, w1)
        end)
  /\ (b = [] -> init (Py.PyBytes b) kw w = init Py.PyNone kw w).
Proof.
  cbv zeta. split; [|split; [|split]].
  - rewrite !init_eq. unfold Run.bind, ELFObject.resolve_input.
    destruct b as [|x r]; reflexivity.
  - apply Forall_forall. intros n Hn. apply in_map_iff in Hn as (c & <- & _).
    apply byte_val_range.
  - intro Hb. rewrite init_eq. unfold Run.bind. rewrite resolve_input_eq.
    unfold resolved. destruct b as [|c r]; [contradiction|].
    cbn [Py.truthy parse_arg_of].
    destruct (lief_ELF_parse _) as [[e|]|x]; reflexivity.
  - intros ->. rewrite !init_eq. unfold Run.bind. now rewrite !resolve_input_eq.
Qed.

(** ** The attributes of the two objects *)

(** X8.  An ELF object that was built is named [elf] and has exactly five
    attributes, in this order: [type], [entrypoint-address], [arch],
    [os_abi] and [number-sections]; [entrypoint-address] is the entry point
    the parser reports, as it is.  Its section objects are named
    [elf-section] and hold no reference. *)
Theorem binary_attributes
    (lief_ELF_parse : Run.parse_arg -> Run.result (option Lief.Binary))
    (pydeep : option Pydeep.module) (parsed filepath pseudofile : Py.object)
    (kw : MISP.kwargs) (w w' : Run.world) (o : ELFObject.t) :
  ELFObject.__init__ lief_ELF_parse pydeep parsed filepath pseudofile kw w
  = (Run.Ok o, w') ->
  exists e,
    ELFObject.__elf o = Some e
    /\ MISP.name (ELFObject.base o) = "elf"
    /\ map MISP.object_relation (MISP.Attribute (ELFObject.base o))
       = ["type"; "entrypoint-address"; "arch"; "os_abi"; "number-sections"]
    /\ MISP.get_attributes_by_relation (ELFObject.base o) "entrypoint-address"
       = [MISP.VInt (Lief.entrypoint e)]
    /\ Forall (fun so => MISP.name (ELFSectionObject.base so) = "elf-section"
                         /\ MISP.ObjectReference (ELFSectionObject.base so) = [])
         (ELFObject.sections o).
Proof.
  rewrite init_eq. intro H.
  apply bind_ok_inv in H as (self & w1 & Hres & Hgen).
  apply resolve_input_ok in Hres as (Hbase & _ & _).
  apply generate_attributes_ok in Hgen
    as (e & l1 & l2 & l3 & objs & _ & _ & _ & _ & Hbuilt & Helf & Hobjs
        & Hattr & _ & _ & Hname & _).
  exists e. split; [exact Helf|].
  rewrite Hbase in Hattr, Hname. cbn in Hattr, Hname.
  split; [exact Hname|].
  unfold MISP.get_attributes_by_relation. rewrite Hattr.
  split; [reflexivity|]. split; [reflexivity|].
  rewrite Hobjs. eapply built_Forall; [|exact Hbuilt].
  intros u s attrs _. now split.
Qed.

(** X9.  The digests are those of the content, whatever the size says: a
    section object built for a section of a size greater than zero and an
    empty content (a section that takes no room in the file) has the
    digests of the empty byte string. *)
Theorem digests_of_empty_content
    (pydeep : option Pydeep.module) (s : Lief.Section) (kw : MISP.kwargs)
    (w w' : Run.world) (o : ELFSectionObject.t) :
  ELFSectionObject.__init__ pydeep s kw w = (Run.Ok o, w') ->
  (0 < Lief.size s)%Z ->
  Lief.content s = [] ->
  let get := MISP.get_attributes_by_relation (ELFSectionObject.base o) in
  get "md5" = [MISP.VStr "d41d8cd98f00b204e9800998ecf8427e"]
  /\ get "sha1" = [MISP.VStr "da39a3ee5e6b4b0d3255bfef95601890afd80709"]
  /\ get "sha256"
     = [MISP.VStr "e3b0c44298fc1c149afbf4c8996fb92427ae41e4649b934ca495991b7852b855"]
  /\ get "sha512"
     = [MISP.VStr "cf83e1357eefb8bdf1542850d66d8007d620e4050b5715dc83f4a921d36ce9ce47d0d13c5d85f2b0ff8318d2877eec2f63b931bd47417a81a538327af927da3e"].
Proof.
  intros Hinit Hsize Hempty get. subst get.
  apply ELFSectionObject_init_ok in Hinit as (attrs & Hattrs & -> & _).
  apply section_attributes_ok in Hattrs as (ty & ls & _ & _ & Hpos & _).
  destruct (Hpos Hsize) as (ss & Hss & ->).
  apply ssdeep_attributes_ok in Hss.
  assert (Hget : forall rel, String.eqb "ssdeep" rel = false ->
            filter (fun a => String.eqb (MISP.object_relation a) rel) ss = []).
  { intros rel Hrel.
    destruct pydeep as [m|]; [destruct Hss as (d & _ & ->) | subst ss];
      unfold attr; cbn [filter MISP.object_relation];
      [now rewrite Hrel | reflexivity]. }
  repeat split; read_attributes; rewrite Hget by reflexivity; rewrite Hempty;
    vm_compute; reflexivity.
Qed.

(** ** [make_elf_objects] *)

Lemma fold_left_append {A : Type} (l acc : list A) :
  fold_left (fun acc s => (acc ++ [s])%list) l acc = (acc ++ l)%list.
Proof.
  revert acc; induction l as [|x r IH]; intro acc; simpl.
  - now rewrite List.app_nil_r.
  - now rewrite IH, <- List.app_assoc.
Qed.

Lemma parse_calls_app (t1 t2 : list Run.event) :
  parse_calls (t1 ++ t2) = (parse_calls t1 ++ parse_calls t2)%list.
Proof. unfold parse_calls. apply List.flat_map_app. Qed.

Lemma parse_calls_contents (t : list Run.event) :
  Forall is_content t -> parse_calls t = [].
Proof.
  induction 1 as [|e r He _ IH]; [reflexivity|].
  destruct e; try contradiction. exact IH.
Qed.

Lemma parse_calls_parse (l : list Run.parse_arg) :
  parse_calls (map Run.LiefParse l) = l.
Proof.
  induction l as [|a r IH]; [reflexivity|].
  change (a :: parse_calls (map Run.LiefParse r) = a :: r). now rewrite IH.
Qed.

Lemma init_not_Binary lief_ELF_parse pydeep parsed kw w :
  is_Binary parsed = false ->
  ELFObject.__init__ lief_ELF_parse pydeep parsed Py.PyNone Py.PyNone kw w
  = (Run.Raise
       (if Py.truthy parsed then
          Py.InvalidMISPObject ("Not a lief.ELF.Binary: " ++ Py.type_repr parsed)
        else Py.AttributeError no___elf),
     started pydeep w).
Proof.
  intro Hb. rewrite init_eq. unfold ELFObject.resolve_input.
  cbn [Py.truthy]. destruct (Py.truthy parsed) eqn:Ht.
  - destruct parsed; try discriminate; reflexivity.
  - unfold Run.bind, Run.ret. now rewrite generate_attributes_unset.
Qed.

(** ** The input the constructor takes *)

(** C10.  Of [pseudofile], [filepath] and [parsed], the constructor
    resolves the first that is truthy, in this order, and does not look at
    the others, however many are given; giving more than one is no error.
    - It does what it does when given that input alone.
    - A truthy [pseudofile] of a supported type is parsed, and attributes
      are generated from the binary the parser returns; else a truthy
      [filepath] is parsed likewise; else a truthy [parsed] that is a
      binary is the binary attributes are generated from.  In every other
      case the constructor raises, as written out.
    - So the object returned holds in [__elf] the binary of the input
      selected.
    - The parser is called on the input selected and on nothing else. *)
Theorem input_precedence
    (lief_ELF_parse : Run.parse_arg -> Run.result (option Lief.Binary))
    (pydeep : option Pydeep.module) (parsed filepath pseudofile : Py.object)
    (kw : MISP.kwargs) (w : Run.world) :
  let init := ELFObject.__init__ lief_ELF_parse pydeep in
  let generate e w1 :=
    ELFObject.generate_attributes pydeep (ELFObject.set___elf (blank kw w) e) w1 in
  let w0 := started pydeep w in
  init parsed filepath pseudofile kw w
  = (if Py.truthy pseudofile then init Py.PyNone Py.PyNone pseudofile kw w
     else if Py.truthy filepath then init Py.PyNone filepath Py.PyNone kw w
     else init parsed Py.PyNone Py.PyNone kw w)
  /\ init parsed filepath pseudofile kw w
     = (if Py.truthy pseudofile then
          match parse_arg_of pseudofile with
          | Some arg =>
              match lief_ELF_parse arg with
              | Run.Ok (Some e) => generate e (parsed_with arg w0)
              | Run.Ok None =>
                  (Run.Raise (Py.InvalidMISPObject "Unable to parse pseudofile"),
                   parsed_with arg w0)
              | Run.Raise x => (Run.Raise x, parsed_with arg w0)
              end
          | None =>
              (Run.Raise (Py.InvalidMISPObject
                 ("Pseudo file can be BytesIO or bytes got "
                    ++ Py.type_repr pseudofile)), w0)
          end
        else if Py.truthy filepath then
          match lief_ELF_parse (Run.ParsePath filepath) with
          | Run.Ok (Some e) => generate e (parsed_with (Run.ParsePath filepath) w0)
          | Run.Ok None =>
              (Run.Raise (Py.AttributeError no___elf),
               parsed_with (Run.ParsePath filepath) w0)
          | Run.Raise x => (Run.Raise x, parsed_with (Run.ParsePath filepath) w0)
          end
        else if Py.truthy parsed then
          match parsed with
          | Py.PyBinary e => generate e w0
          | _ =>
              (Run.Raise (Py.InvalidMISPObject
                 ("Not a lief.ELF.Binary: " ++ Py.type_repr parsed)), w0)
          end
        else (Run.Raise (Py.AttributeError no___elf), w0))
  /\ (forall o w',
        init parsed filepath pseudofile kw w = (Run.Ok o, w') ->
        exists e,
          ELFObject.__elf o = Some e
          /\ ((Py.truthy pseudofile = true
               /\ exists arg, parse_arg_of pseudofile = Some arg
                              /\ lief_ELF_parse arg = Run.Ok (Some e))
              \/ (Py.truthy pseudofile = false /\ Py.truthy filepath = true
                  /\ lief_ELF_parse (Run.ParsePath filepath) = Run.Ok (Some e))
              \/ (Py.truthy pseudofile = false /\ Py.truthy filepath = false
                  /\ parsed = Py.PyBinary e)))
  /\ parse_calls (Run.trace (snd (init parsed filepath pseudofile kw w)))
     = (parse_calls (Run.trace w)
          ++ (if Py.truthy pseudofile then
                match parse_arg_of pseudofile with
                | Some arg => [arg]
                | None => []
                end
              else if Py.truthy filepath then [Run.ParsePath filepath]
              else []))%list.
Proof.
  cbv zeta.
  assert (Hgen : forall e w1 o w',
             ELFObject.generate_attributes pydeep
               (ELFObject.set___elf (blank kw w) e) w1 = (Run.Ok o, w') ->
             ELFObject.__elf o = Some e).
  { intros e w1 o w' H.
    apply generate_attributes_ok in H
      as (e' & l1 & l2 & l3 & objs & He & _ & _ & _ & _ & Ho & _).
    cbn in He. injection He as <-. exact Ho. }
  split; [|split; [|split]].
  - rewrite !init_eq. unfold Run.bind. rewrite resolve_input_precedence.
    destruct (Py.truthy pseudofile); [reflexivity|].
    destruct (Py.truthy filepath); reflexivity.
  - rewrite init_eq. unfold Run.bind. rewrite resolve_input_eq. unfold resolved.
    destruct (Py.truthy pseudofile).
    + destruct (parse_arg_of pseudofile) as [arg|]; [|reflexivity].
      destruct (lief_ELF_parse arg) as [[e|]|x]; reflexivity.
    + destruct (Py.truthy filepath).
      * destruct (lief_ELF_parse (Run.ParsePath filepath)) as [[e|]|x];
          reflexivity.
      * destruct (Py.truthy parsed); [destruct parsed|]; reflexivity.
  - intros o w'. rewrite init_eq. unfold Run.bind. rewrite resolve_input_eq.
    unfold resolved.
    destruct (Py.truthy pseudofile).
    + destruct (parse_arg_of pseudofile) as [arg|]; [|discriminate].
      destruct (lief_ELF_parse arg) as [[e|]|x] eqn:Hp; try discriminate.
      intro H. exists e. split; [exact (Hgen _ _ _ _ H)|].
      left. split; [reflexivity|]. exists arg. now split.
    + destruct (Py.truthy filepath).
      * destruct (lief_ELF_parse (Run.ParsePath filepath)) as [[e|]|x] eqn:Hp;
          try discriminate.
        intro H. exists e. split; [exact (Hgen _ _ _ _ H)|].
        right; left. now repeat split.
      * destruct (Py.truthy parsed); [|discriminate].
        destruct parsed as [| | | | | | | |e]; try discriminate.
        intro H. exists e. split; [exact (Hgen _ _ _ _ H)|].
        right; right. now repeat split.
  - destruct (init_trace lief_ELF_parse pydeep parsed filepath pseudofile kw w)
      as (contents & -> & Hc).
    rewrite !parse_calls_app, (parse_calls_contents _ Hc), List.app_nil_r.
    fold (resolved_calls filepath pseudofile).
    assert (Hw : parse_calls (if HAS_PYDEEP pydeep then []
                              else [Run.LoggerWarning pydeep_warning]) = [])
      by (destruct (HAS_PYDEEP pydeep); reflexivity).
    now rewrite Hw, parse_calls_parse.
Qed.

Lemma input_precedence_witness :
  Py.truthy (Py.PyBytes [x7f; x45; x4c; x46]) = true
  /\ Py.truthy (Py.PyStr "/bin/true") = true
  /\ Py.truthy (Py.PyBinary Sample.binary_odd) = true
  /\ exists o w',
       ELFObject.__init__ Sample.parse_magic None
         (Py.PyBinary Sample.binary_odd) (Py.PyStr "/bin/true")
         (Py.PyBytes [x7f; x45; x4c; x46]) Sample.kw Sample.w0
       = (Run.Ok o, w')
       /\ ELFObject.__elf o = Some Sample.binary
       /\ parse_calls (Run.trace w') = [Run.ParseRaw [127; 69; 76; 70]%Z].
Proof.
  split; [reflexivity|]. split; [reflexivity|]. split; [reflexivity|].
  destruct (ELFObject.__init__ Sample.parse_magic None
              (Py.PyBinary Sample.binary_odd) (Py.PyStr "/bin/true")
              (Py.PyBytes [x7f; x45; x4c; x46]) Sample.kw Sample.w0)
    as [[o|x] w'] eqn:H; [|vm_compute in H; discriminate].
  destruct (input_precedence Sample.parse_magic None
              (Py.PyBinary Sample.binary_odd) (Py.PyStr "/bin/true")
              (Py.PyBytes [x7f; x45; x4c; x46]) Sample.kw Sample.w0)
    as (_ & _ & Helf & Hcalls).
  exists o, w'. split; [reflexivity|]. split.
  - destruct (Helf _ _ H) as (e & He & [(_ & arg & Ha & Hp) | [(Hf & _) | (Hf & _)]]);
      [|discriminate Hf|discriminate Hf].
    injection Ha as <-. injection Hp as <-. exact He.
  - rewrite H in Hcalls. exact Hcalls.
Defined.

(** X10.  When [make_elf_objects] returns, the ELF object is the one
    [ELFObject(parsed=lief_parsed)] builds from the pre-parsed binary, the
    sections returned are its section objects, in order, and the file
    object has gained one reference, the last, to the ELF object
    ([includes], [ELF indicators]) and is otherwise as it was; the parser
    was not called. *)
Theorem make_elf_objects_returns
    (lief_ELF_parse : Run.parse_arg -> Run.result (option Lief.Binary))
    (pydeep : option Pydeep.module) (lief_parsed : Py.object)
    (misp_file misp_file' : MISP.MISPObject) (standalone : bool)
    (default_attributes_parameters : list (string * string))
    (w w' : Run.world) (elf_object : ELFObject.t)
    (elf_sections : list ELFSectionObject.t) :
  make_elf_objects lief_ELF_parse pydeep lief_parsed misp_file standalone
    default_attributes_parameters w
  = (Run.Ok (misp_file', elf_object, elf_sections), w') ->
  ELFObject.__init__ lief_ELF_parse pydeep lief_parsed Py.PyNone Py.PyNone
    {| MISP.standalone := standalone;
       MISP.default_attributes_parameters := default_attributes_parameters |} w
  = (Run.Ok elf_object, w')
  /\ (exists e, lief_parsed = Py.PyBinary e /\ ELFObject.__elf elf_object = Some e)
  /\ elf_sections = ELFObject.sections elf_object
  /\ MISP.ObjectReference misp_file'
     = (MISP.ObjectReference misp_file
          ++ [{| MISP.referenced_uuid := MISP.uuid (ELFObject.base elf_object);
                 MISP.relationship_type := "includes";
                 MISP.comment := "ELF indicators" |}])%list
  /\ MISP.Attribute misp_file' = MISP.Attribute misp_file
  /\ MISP.uuid misp_file' = MISP.uuid misp_file
  /\ MISP.name misp_file' = MISP.name misp_file
  /\ parse_calls (Run.trace w') = parse_calls (Run.trace w).
Proof.
  unfold make_elf_objects. intro H.
  apply bind_ok_inv in H as (o & w1 & Hinit & Hret).
  injection Hret as <- <- <- <-. rewrite fold_left_append.
  split; [exact Hinit|].
  split.
  { destruct (is_Binary lief_parsed) eqn:Hb.
    - destruct lief_parsed as [| | | | | | | |b]; try discriminate.
      exists b. split; [reflexivity|].
      rewrite init_parsed_eq in Hinit.
      apply generate_attributes_ok in Hinit
        as (e & l1 & l2 & l3 & objs & He & _ & _ & _ & _ & He' & _).
      cbn in He. injection He as Heq. subst e. exact He'.
    - rewrite (init_not_Binary _ _ _ _ _ Hb) in Hinit. discriminate. }
  repeat split.
  destruct (init_trace lief_ELF_parse pydeep lief_parsed Py.PyNone Py.PyNone
              {| MISP.standalone := standalone;
                 MISP.default_attributes_parameters := default_attributes_parameters |}
              w) as (contents & Ht & Hc).
  rewrite Hinit in Ht. cbn [snd] in Ht. rewrite Ht.
  rewrite !parse_calls_app, (parse_calls_contents _ Hc).
  destruct (HAS_PYDEEP pydeep); cbn; now rewrite ?List.app_nil_r.
Qed.

(** X11.  Given anything but a pre-parsed binary, [make_elf_objects]
    returns nothing and raises, before anything is parsed or built:
    [InvalidMISPObject] for a truthy value, and the [AttributeError] of the
    unset [__elf] for a falsy one, [None] among them. *)
Theorem make_elf_objects_raises
    (lief_ELF_parse : Run.parse_arg -> Run.result (option Lief.Binary))
    (pydeep : option Pydeep.module) (lief_parsed : Py.object)
    (misp_file : MISP.MISPObject) (standalone : bool)
    (default_attributes_parameters : list (string * string)) (w : Run.world) :
  is_Binary lief_parsed = false ->
  make_elf_objects lief_ELF_parse pydeep lief_parsed misp_file standalone
    default_attributes_parameters w
  = (Run.Raise
       (if Py.truthy lief_parsed then
          Py.InvalidMISPObject ("Not a lief.ELF.Binary: " ++ Py.type_repr lief_parsed)
        else Py.AttributeError no___elf),
     started pydeep w).
Proof.
  intro Hb. unfold make_elf_objects.
  apply bind_raise. now apply init_not_Binary.
Qed.

(** ** The further properties at the sample inputs *)

Lemma constructor_exceptions_witness :
  (exists x w',
      ELFObject.__init__ Sample.parse_magic (Some Sample.fuzzy)
        (Py.PyBinary Sample.binary_odd) Py.PyNone Py.PyNone Sample.kw Sample.w0
      = (Run.Raise x, w')
      /\ x = Py.IndexError "list index out of range")
  /\ (exists x w',
        ELFObject.__init__ Sample.parse_strict (Some Sample.fuzzy)
          Py.PyNone (Py.PyInt 5) Py.PyNone Sample.kw Sample.w0
        = (Run.Raise x, w')
        /\ x = Py.Exception "TypeError" "parse(): incompatible function arguments"
        /\ Sample.parse_strict (Run.ParsePath (Py.PyInt 5)) = Run.Raise x
        /\ w' = parsed_with (Run.ParsePath (Py.PyInt 5))
                  (started (Some Sample.fuzzy) Sample.w0)).
Proof.
  split.
  - destruct (ELFObject.__init__ Sample.parse_magic (Some Sample.fuzzy)
                (Py.PyBinary Sample.binary_odd) Py.PyNone Py.PyNone Sample.kw Sample.w0)
      as [[o|x] w'] eqn:H; [vm_compute in H; discriminate|].
    exists x, w'. split; [reflexivity|].
    destruct (constructor_exceptions _ _ _ _ _ _ _ _ _ H) as [(arg & Ha & _) | Hx];
      [discriminate Ha|].
    destruct x as [m|m|m|m|m|c m]; try (vm_compute in H; discriminate).
    now rewrite Hx.
  - destruct (ELFObject.__init__ Sample.parse_strict (Some Sample.fuzzy)
                Py.PyNone (Py.PyInt 5) Py.PyNone Sample.kw Sample.w0)
      as [[o|x] w'] eqn:H; [vm_compute in H; discriminate|].
    exists x, w'. split; [reflexivity|].
    assert (Hx : x = Py.Exception "TypeError" "parse(): incompatible function arguments")
      by (vm_compute in H; now injection H as <- _).
    split; [exact Hx|].
    destruct (constructor_exceptions _ _ _ _ _ _ _ _ _ H) as [(arg & Ha & Hp & Hw) | Hn].
    + injection Ha as <-. split; [exact Hp | exact Hw].
    + rewrite Hx in Hn. destruct Hn.
Defined.

Lemma bytes_as_list_witness :
  ELFObject.__init__ Sample.parse_magic None Py.PyNone Py.PyNone
    (Py.PyList [127; 69; 76; 70]%Z) Sample.kw Sample.w0
  = ELFObject.generate_attributes None
      (ELFObject.set___elf (blank Sample.kw Sample.w0) Sample.binary)
      (parsed_with (Run.ParseRaw [127; 69; 76; 70]%Z) (started None Sample.w0)).
Proof.
  assert (Hp : Sample.parse_magic
                 (Run.ParseRaw (map Hashlib.byte_val [x7f; x45; x4c; x46]))
               = Run.Ok (Some Sample.binary)) by reflexivity.
  assert (Hb : [x7f; x45; x4c; x46] <> []) by (intro Hnil; discriminate Hnil).
  destruct (bytes_as_list Sample.parse_magic None Py.PyNone Py.PyNone
              [x7f; x45; x4c; x46] Sample.kw Sample.w0) as (Heq & _ & Hne & _).
  specialize (Hne Hb). rewrite Hp in Hne.
  exact (eq_trans (eq_sym Heq) Hne).
Defined.

Lemma unnamed_sections_ignored_witness :
  same_but___elf
    (ELFObject.__init__ Sample.parse_magic None
       (Py.PyBinary Sample.binary) Py.PyNone Py.PyNone Sample.kw Sample.w0)
    (ELFObject.__init__ Sample.parse_magic None
       (Py.PyBinary Sample.binary') Py.PyNone Py.PyNone Sample.kw Sample.w0).
Proof.
  apply unnamed_sections_ignored; reflexivity.
Defined.

Lemma parsed_input_as_preparsed_witness :
  fst (ELFObject.__init__ Sample.parse_magic None
         Py.PyNone Py.PyNone (Py.PyBytes [x7f; x45; x4c; x46]) Sample.kw Sample.w0)
  = fst (ELFObject.__init__ Sample.parse_magic None
           (Py.PyBinary Sample.binary) Py.PyNone Py.PyNone Sample.kw Sample.w0).
Proof.
  exact (proj1 (parsed_input_as_preparsed Sample.parse_magic None
                  Py.PyNone Py.PyNone (Py.PyBytes [x7f; x45; x4c; x46])
                  Sample.kw Sample.w0 (Run.ParseRaw [127; 69; 76; 70]%Z) Sample.binary
                  eq_refl eq_refl)).
Defined.

Lemma binary_attributes_witness :
  exists o w',
    ELFObject.__init__ Sample.parse_magic None
      (Py.PyBinary Sample.binary) Py.PyNone Py.PyNone Sample.kw Sample.w0
    = (Run.Ok o, w')
    /\ map MISP.object_relation (MISP.Attribute (ELFObject.base o))
       = ["type"; "entrypoint-address"; "arch"; "os_abi"; "number-sections"]
    /\ MISP.get_attributes_by_relation (ELFObject.base o) "entrypoint-address"
       = [MISP.VInt 4096].
Proof.
  destruct (ELFObject.__init__ Sample.parse_magic None
              (Py.PyBinary Sample.binary) Py.PyNone Py.PyNone Sample.kw Sample.w0)
    as [[o|x] w'] eqn:H; [|vm_compute in H; discriminate].
  destruct (binary_attributes _ _ _ _ _ _ _ _ _ H) as (e & He & _ & Hrel & Hentry & _).
  assert (He' : e = Sample.binary).
  { vm_compute in H. injection H as <- _. simpl in He. now injection He as <-. }
  subst e. exists o, w'. split; [reflexivity|]. split; [exact Hrel | exact Hentry].
Defined.

Lemma digests_of_empty_content_witness :
  exists o w',
    ELFSectionObject.__init__ None Sample.bss Sample.kw Sample.w0 = (Run.Ok o, w')
    /\ (0 < Lief.size Sample.bss)%Z
    /\ MISP.get_attributes_by_relation (ELFSectionObject.base o) "md5"
       = [MISP.VStr "d41d8cd98f00b204e9800998ecf8427e"].
Proof.
  destruct (ELFSectionObject.__init__ None Sample.bss Sample.kw Sample.w0)
    as [[o|x] w'] eqn:H; [|vm_compute in H; discriminate].
  assert (Hsize : (0 < Lief.size Sample.bss)%Z) by reflexivity.
  destruct (digests_of_empty_content None Sample.bss Sample.kw Sample.w0 w' o
              H Hsize eq_refl) as (Hmd5 & _).
  exists o, w'. split; [reflexivity|]. split; [exact Hsize | exact Hmd5].
Defined.

Lemma make_elf_objects_returns_witness :
  exists misp_file' elf_object elf_sections w',
    make_elf_objects Sample.parse_magic None (Py.PyBinary Sample.binary)
      Sample.file true [] Sample.w0
    = (Run.Ok (misp_file', elf_object, elf_sections), w')
    /\ elf_sections = ELFObject.sections elf_object
    /\ MISP.ObjectReference misp_file'
       = [{| MISP.referenced_uuid := MISP.uuid (ELFObject.base elf_object);
             MISP.relationship_type := "includes";
             MISP.comment := "ELF indicators" |}]
    /\ MISP.Attribute misp_file' = MISP.Attribute Sample.file.
Proof.
  destruct (make_elf_objects Sample.parse_magic None (Py.PyBinary Sample.binary)
              Sample.file true [] Sample.w0)
    as [[[[f o] secs]|x] w'] eqn:H; [|vm_compute in H; discriminate].
  destruct (make_elf_objects_returns _ _ _ _ _ _ _ _ _ _ _ H)
    as (_ & _ & Hsecs & Hrefs & Hattrs & _).
  exists f, o, secs, w'. split; [reflexivity|].
  split; [exact Hsecs|]. split; [exact Hrefs | exact Hattrs].
Defined.

Lemma make_elf_objects_raises_witness :
  make_elf_objects Sample.parse_magic None Py.PyNone Sample.file true [] Sample.w0
  = (Run.Raise (Py.AttributeError no___elf), started None Sample.w0)
  /\ make_elf_objects Sample.parse_magic None (Py.PyBytes [x7f; x45; x4c; x46])
       Sample.file true [] Sample.w0
     = (Run.Raise (Py.InvalidMISPObject "Not a lief.ELF.Binary: <class 'bytes'>"),
        started None Sample.w0).
Proof.
  split.
  - exact (make_elf_objects_raises Sample.parse_magic None Py.PyNone Sample.file
             true [] Sample.w0 eq_refl).
  - exact (make_elf_objects_raises Sample.parse_magic None
             (Py.PyBytes [x7f; x45; x4c; x46]) Sample.file true [] Sample.w0 eq_refl).
Defined.
